(** * The video job daemon of AutoVideoGen/scripts/background_automation.py

    A shallow embedding of the job store, the status file and the scheduling
    loop of the background automation service, with the properties of its
    job queue, state machine and status snapshot.

    The program is stateful and talks to three things outside itself: the
    SQLite table [videos], the JSON status file, and the desktop application
    it drives.  The embedding threads a [world] through a state-and-exception
    monad; what the outside does (whether the database answers, whether the
    GUI calls raise, whether the exported file exists, when the user presses
    Ctrl-C) is read from an [environment].  Calls to [logger] and [print]
    only write to the log file and the terminal and are left out.

    The world keeps, next to the table, every state the table has been
    committed in and every [UPDATE] committed, so that properties of all
    instants of a run and of the order of the writes can be stated.

    Three things are taken from the environment as they come.  Reading and
    writing the status file succeeds.  Ctrl-C reaches the program where it
    waits: in [time.sleep], at the imports and while Vrew is driven.  Nobody
    else writes the table or the status file while the program runs.  Text is
    ASCII.

    Where a statement would be true of the embedding and not of the program
    without one of these, it says so: ids handed to the database from outside
    the table are SQLite integers ([sqlite_integer]), titles whose characters
    are inspected are ASCII ([is_ascii]), and statements that need the program
    not to be interrupted say [uninterrupted] or [quiet]. *)

From stdpp Require Import gmap strings list fin_maps sorting pretty.
From Stdlib Require Import ZArith Ascii String.

Local Open Scope Z_scope.

(** ** Python values and exceptions *)

(** [KeyboardInterrupt] derives from [BaseException] only, every other
    exception the program can meet derives from [Exception]; the argument
    names the class. *)
Inductive exn : Type :=
| KeyboardInterrupt
| Exception (what : string).

Inductive outcome (A : Type) : Type :=
| Ret (a : A)
| Raise (e : exn).
Arguments Ret {A} a.
Arguments Raise {A} e.

(** The values found in the status file.  [JVideo] is the object
    [{"id": .., "title": ..}]; [JTime t] is the string
    [datetime.now().isoformat()] taken when the clock reads [t]. *)
Inductive jval : Type :=
| JNull
| JBool (b : bool)
| JInt (n : Z)
| JStr (s : string)
| JTime (t : Z)
| JVideo (video_id : Z) (title : string).

Global Instance jval_eq_dec : EqDecision jval.
Proof. solve_decision. Defined.

(** ** The job store *)

(** A row of the table [videos]. *)
Record video : Type := Video {
  video_id : Z;
  title : string;
  script : string;
  status : string;
  file_path : string;
}.

Global Instance video_eq_dec : EqDecision video.
Proof. solve_decision. Defined.

(** [UPDATE videos SET status=?, file_path=? WHERE id=?] on one row. *)
Definition set_row (vid : Z) (st fp : string) (v : video) : video :=
  if decide (video_id v = vid)
  then {| video_id := video_id v; title := title v; script := script v;
          status := st; file_path := fp |}
  else v.

Definition sql_update (vid : Z) (st fp : string) (t : list video) : list video :=
  set_row vid st fp <$> t.
Arguments sql_update : simpl never.

(** [ORDER BY id] on the selected triples. *)
Definition by_id : relation (Z * string * string) := λ a b, a.1.1 ≤ b.1.1.

Global Instance by_id_dec : RelDecision by_id.
Proof. intros a b. unfold by_id. apply _. Defined.

(** The columns [SELECT id, title, script] keeps of a row. *)
Definition selected (v : video) : Z * string * string :=
  (video_id v, title v, script v).

(** [SELECT id, title, script FROM videos WHERE status='planned' ORDER BY id] *)
Definition sql_select_planned (t : list video) : list (Z * string * string) :=
  merge_sort by_id (selected <$> filter (λ v, status v = "planned") t).

(** ** The world *)

Record world : Type := World {
  db : list video;                        (* table videos of database.db *)
  committed : list (list video);          (* its earlier committed states, latest first *)
  journal : list (Z * string * string);   (* the UPDATEs committed, latest first *)
  status_json : option (gmap string jval);(* automation_status.json; None: absent or unreadable *)
  now : Z;                                (* wall clock, seconds *)
  store_ops : nat;                        (* sqlite3 accesses made so far *)
}.

(** Every state the table has been in, latest first. *)
Definition timeline (w : world) : list (list video) := db w :: committed w.

Record environment : Type := Environment {
  OUTPUT_DIR : string;
  VREW_PATH : string;
  os_sep : string;
  path_exists : string → bool;       (* Path.exists() *)
  store_up : nat → bool;             (* the n-th sqlite3 access finds the database *)
  import_fault : Z → option exn;     (* raised by import pyautogui / pyperclip *)
  gui_fault : Z → option exn;        (* raised while Vrew is driven for a video *)
  gui_seconds : Z → Z;               (* time spent driving Vrew for a video *)
  ctrl_c : Z → bool;                 (* Ctrl-C arrives during the sleep entered at that time *)
}.

(** ** The monad *)

Definition M (A : Type) : Type := world → outcome A * world.

Global Instance M_ret : MRet M := λ A a w, (Ret a, w).

Global Instance M_bind : MBind M := λ A B f m w,
  match m w with
  | (Ret a, w') => f a w'
  | (Raise e, w') => (Raise e, w')
  end.

Definition raise {A} (e : exn) : M A := λ w, (Raise e, w).

Definition gets {A} (f : world → A) : M A := λ w, (Ret (f w), w).

Definition modify (f : world → world) : M unit := λ w, (Ret tt, f w).

Definition set_status_json (s : option (gmap string jval)) (w : world) : world :=
  {| db := db w; committed := committed w; journal := journal w;
     status_json := s; now := now w; store_ops := store_ops w |}.

Definition set_now (t : Z) (w : world) : world :=
  {| db := db w; committed := committed w; journal := journal w;
     status_json := status_json w; now := t; store_ops := store_ops w |}.

Definition set_store_ops (n : nat) (w : world) : world :=
  {| db := db w; committed := committed w; journal := journal w;
     status_json := status_json w; now := now w; store_ops := n |}.

(** A committed [UPDATE]: the table changes, its previous state and the
    statement are remembered. *)
Definition commit_update (vid : Z) (st fp : string) (w : world) : world :=
  {| db := sql_update vid st fp (db w);
     committed := db w :: committed w;
     journal := (vid, st, fp) :: journal w;
     status_json := status_json w; now := now w; store_ops := store_ops w |}.

(** [try: body except Exception as e: handler].  A [KeyboardInterrupt]
    passes through. *)
Definition try_except_Exception {A} (body : M A) (handler : string → M A) : M A :=
  λ w, match body w with
       | (Raise (Exception e), w') => handler e w'
       | r => r
       end.

Section Program.

Context (env : environment).

(** ** Status reporter *)

Definition default_status : gmap string jval :=
  {[ "running" := JBool false;
     "current_video" := JNull;
     "last_update" := JNull;
     "processed_count" := JInt 0;
     "failed_count" := JInt 0 ]}.

Definition get_status : M (gmap string jval) :=
  gets (λ w, default default_status (status_json w)).

(** The status file is absent or unreadable ([None]) or holds a JSON object.
    A file holding other valid JSON, on which [status.update] would raise,
    and a write that fails are outside the embedding: the program itself
    only ever writes an object. *)
Definition update_status (updates : gmap string jval) : M unit :=
  st ← get_status;
  t ← gets now;
  modify (set_status_json (Some (<["last_update" := JTime t]> (updates ∪ st)))).

(** [d.get(key, fallback)] *)
Definition dict_get (d : gmap string jval) (key : string) (fallback : jval) : jval :=
  default fallback (d !! key).

(** [v + n] for an int [n]: defined on ints and bools, a [TypeError] on
    [None], strings and objects. *)
Definition py_add (v : jval) (n : Z) : M jval :=
  match v with
  | JInt k => mret (JInt (k + n))
  | JBool b => mret (JInt (Z.b2z b + n))
  | _ => raise (Exception "TypeError")
  end.

(** [if v:] *)
Definition truthy (v : jval) : bool :=
  match v with
  | JNull => false
  | JBool b => b
  | JInt n => negb (n =? 0)
  | JStr s => negb (String.eqb s "")
  | JTime _ => true
  | JVideo _ _ => true
  end.

(** Whether [v['id']] and [v['title']] can be taken: of the values of the
    status file only the object can; on a string or a number Python raises
    [TypeError]. *)
Definition subscriptable (v : jval) : bool :=
  match v with
  | JVideo _ _ => true
  | _ => false
  end.

(** ** Job store *)

(** [sqlite3.connect] and the statement that follows: one access, which
    either reaches the database or raises. *)
Definition sqlite3_connect : M unit :=
  n ← gets store_ops;
  modify (set_store_ops (S n)) ;;
  if store_up env n then mret tt
  else raise (Exception "sqlite3.OperationalError").

Definition get_planned_videos : M (list (Z * string * string)) :=
  sqlite3_connect ;;
  gets (λ w, sql_select_planned (db w)).

(** SQLite stores an id as a signed 64-bit integer.  Binding a Python int
    outside that range raises [OverflowError] before anything is written;
    the ids the program passes are read from the table and are in range.
    Statements about an id that need not come from the table assume
    [sqlite_integer]. *)
Definition sqlite_integer (z : Z) : Prop := - 2 ^ 63 ≤ z < 2 ^ 63.

Definition update_video_status (vid : Z) (st : string) (fp : string) : M unit :=
  sqlite3_connect ;;
  modify (commit_update vid st fp).

Definition check_vrew_installed : bool := path_exists env (VREW_PATH env).

(** ** The automation of one video *)

Definition isalnum (c : ascii) : bool :=
  let n := nat_of_ascii c in
  ((48 <=? n) && (n <=? 57) || (65 <=? n) && (n <=? 90) || (97 <=? n) && (n <=? 122))%nat.

Fixpoint map_chars (f : ascii → ascii) (s : string) : string :=
  match s with
  | EmptyString => EmptyString
  | String c s' => String (f c) (map_chars f s')
  end.

(** ["".join(c if c.isalnum() else "_" for c in title)[:20]], on ASCII text *)
Definition safe_title (t : string) : string :=
  substring 0 20 (map_chars (λ c, if isalnum c then c else "_"%char) t).

Definition filename (vid : Z) (t : string) : string :=
  "video_" +:+ pretty vid +:+ "_" +:+ safe_title t +:+ ".mp4".

Definition output_path (vid : Z) (t : string) : string :=
  OUTPUT_DIR env +:+ os_sep env +:+ filename vid t.

(** [time.sleep(secs)] *)
Definition time_sleep (secs : Z) : M unit :=
  t ← gets now;
  if ctrl_c env t then raise KeyboardInterrupt
  else modify (set_now (t + secs)).

(** [import pyautogui; import pyperclip] *)
Definition import_pyautogui (vid : Z) : M unit :=
  match import_fault env vid with
  | Some e => raise e
  | None => mret tt
  end.

(** Lines 120-193: Vrew is launched and driven through project creation,
    text entry, generation and export with synthetic input.  None of it
    touches the job store or the status file; it takes time and may raise. *)
Definition drive_vrew (vid : Z) : M unit :=
  t ← gets now;
  modify (set_now (t + gui_seconds env vid)) ;;
  match gui_fault env vid with
  | Some e => raise e
  | None => mret tt
  end.

Definition launch_vrew_automation (vid : Z) (t s : string) : M bool :=
  try_except_Exception
    (import_pyautogui vid ;;
     update_video_status vid "processing" "" ;;
     update_status {[ "current_video" := JVideo vid t ]} ;;
     drive_vrew vid ;;
     if path_exists env (output_path vid t)
     then update_video_status vid "downloaded" (output_path vid t) ;; mret true
     else update_video_status vid "failed" "" ;; mret false)
    (λ _, update_video_status vid "failed" "" ;; mret false).

Definition process_one : M bool :=
  videos ← get_planned_videos;
  match videos with
  | [] => mret false
  | (vid, t, s) :: _ => launch_vrew_automation vid t s
  end.

(** ** The daemon *)

(** The body of [for video in videos] (lines 236-245). *)
Definition dispatch (v : Z * string * string) : M unit :=
  let '(vid, t, s) := v in
  success ← launch_vrew_automation vid t s;
  st ← get_status;
  (if success : bool
   then c ← py_add (dict_get st "processed_count" (JInt 0)) 1;
        update_status {[ "processed_count" := c ]}
   else c ← py_add (dict_get st "failed_count" (JInt 0)) 1;
        update_status {[ "failed_count" := c ]}) ;;
  time_sleep 5.

Fixpoint for_video_in (videos : list (Z * string * string)) : M unit :=
  match videos with
  | [] => mret tt
  | v :: rest => dispatch v ;; for_video_in rest
  end.

(** One pass of the [while True] body (lines 232-249). *)
Definition poll : M unit :=
  videos ← get_planned_videos;
  (match videos with
   | [] => mret tt
   | _ => for_video_in videos
   end) ;;
  time_sleep 60.

(** The first [passes] passes of [while True]: [Ret] when all of them ran
    and the loop is about to start another one. *)
Fixpoint while_True (passes : nat) : M unit :=
  match passes with
  | O => mret tt
  | S n => poll ;; while_True n
  end.

(** How far a run of the program has got. *)
Inductive run : Type :=
| Exited (r : outcome unit)  (* the function returned or raised *)
| Looping.                   (* still inside while True *)

(** The [finally] clause of [daemon_mode]. *)
Definition finally_stopped : M unit :=
  update_status {[ "running" := JBool false; "current_video" := JNull ]}.

Definition daemon_mode (passes : nat) (w : world) : run * world :=
  let w1 := (update_status {[ "running" := JBool true;
                              "processed_count" := JInt 0;
                              "failed_count" := JInt 0 ]} w).2 in
  if negb check_vrew_installed then (Exited (Ret tt), w1)
  else
    match while_True passes w1 with
    | (Ret _, w2) => (Looping, w2)
    | (Raise KeyboardInterrupt, w2) => (Exited (Ret tt), (finally_stopped w2).2)
    | (Raise e, w2) => (Exited (Raise e), (finally_stopped w2).2)
    end.

(** ** Entry point *)

(** The status is read and printed; when [current_video] is truthy its id
    and title are taken (line 268), which raises [TypeError] unless it is an
    object; then the planned jobs are queried (line 271).  Printing them and
    the last lines of the log file (lines 272-282) writes neither the table
    nor the status file and is not modelled, so [Ret] stands for a run that
    got past the query, not for one that printed the log. *)
Definition show_status : M unit :=
  st ← get_status;
  (let current := dict_get st "current_video" JNull in
   if truthy current && negb (subscriptable current)
   then raise (Exception "TypeError")
   else mret tt) ;;
  _ ← get_planned_videos;
  mret tt.

Record arguments : Type := Args {
  args_status : bool;
  args_daemon : bool;
  args_process_one : bool;
}.

Definition as_run {A} (r : outcome A * world) : run * world :=
  match r with
  | (Ret _, w) => (Exited (Ret tt), w)
  | (Raise e, w) => (Exited (Raise e), w)
  end.

Definition main (passes : nat) (args : arguments) (w : world) : run * world :=
  if args_status args then as_run (show_status w)
  else if args_daemon args then daemon_mode passes w
  else if args_process_one args then as_run (process_one w)
  else (Exited (Ret tt), w).

End Program.

(** The status the interpreter hands to the calling shell: zero when [main]
    returns, non-zero when an exception escapes it. *)
Inductive exit_status : Type := ExitZero | ExitNonZero.

Definition exit_of (r : run) : option exit_status :=
  match r with
  | Exited (Ret _) => Some ExitZero
  | Exited (Raise _) => Some ExitNonZero
  | Looping => None
  end.

(** ** Concrete environments and stores *)

(** Nothing goes wrong: the database answers, the GUI calls go through, the
    exported file is there and nobody presses Ctrl-C. *)
Definition calm : environment :=
  {| OUTPUT_DIR := "/out"; VREW_PATH := "Vrew.exe"; os_sep := "/";
     path_exists := λ _, true;
     store_up := λ _, true;
     import_fault := λ _, None;
     gui_fault := λ _, None;
     gui_seconds := λ _, 686;
     ctrl_c := λ _, false |}.

(** As [calm], without Vrew and without any exported file. *)
Definition bare : environment :=
  {| OUTPUT_DIR := "/out"; VREW_PATH := "Vrew.exe"; os_sep := "/";
     path_exists := λ _, false;
     store_up := λ _, true;
     import_fault := λ _, None;
     gui_fault := λ _, None;
     gui_seconds := λ _, 686;
     ctrl_c := λ _, false |}.

(** As [calm], with the database unreachable for the first access only. *)
Definition outage : environment :=
  {| OUTPUT_DIR := "/out"; VREW_PATH := "Vrew.exe"; os_sep := "/";
     path_exists := λ _, true;
     store_up := λ n, negb (n =? 0)%nat;
     import_fault := λ _, None;
     gui_fault := λ _, None;
     gui_seconds := λ _, 686;
     ctrl_c := λ _, false |}.

(** As [calm], with Ctrl-C pressed while Vrew is driven for video 1. *)
Definition interrupted : environment :=
  {| OUTPUT_DIR := "/out"; VREW_PATH := "Vrew.exe"; os_sep := "/";
     path_exists := λ _, true;
     store_up := λ _, true;
     import_fault := λ _, None;
     gui_fault := λ vid, if decide (vid = 1) then Some KeyboardInterrupt else None;
     gui_seconds := λ _, 30;
     ctrl_c := λ _, false |}.

(** As [calm], with pyautogui raising while Vrew is driven. *)
Definition clumsy : environment :=
  {| OUTPUT_DIR := "/out"; VREW_PATH := "Vrew.exe"; os_sep := "/";
     path_exists := λ _, true;
     store_up := λ _, true;
     import_fault := λ _, None;
     gui_fault := λ _, Some (Exception "pyautogui.FailSafeException");
     gui_seconds := λ _, 12;
     ctrl_c := λ _, false |}.

Definition planned (vid : Z) (t : string) : video :=
  {| video_id := vid; title := t; script := "Hello world";
     status := "planned"; file_path := "" |}.

(** A world whose history starts now, with no status file yet. *)
Definition fresh (t : list video) : world :=
  {| db := t; committed := []; journal := []; status_json := None;
     now := 0; store_ops := 0 |}.

(** What [get_status] reads in a world. *)
Definition snapshot (w : world) : gmap string jval :=
  default default_status (status_json w).

(** ** Notions the properties are stated with *)

(** The jobs in state [processing] in a table. *)
Definition processing_count (t : list video) : nat :=
  List.length (filter (λ v, status v = "processing") t).
Arguments processing_count : simpl never.

(** A move of one job along planned, processing, then downloaded or failed:
    the state stays, or goes from planned to processing, or from processing
    to a terminal state, or from planned straight to failed. *)
Definition forward (s s' : string) : Prop :=
  s' = s ∨
  (s = "planned" ∧ (s' = "processing" ∨ s' = "failed")) ∨
  (s = "processing" ∧ (s' = "downloaded" ∨ s' = "failed")).

Definition job_step (v v' : video) : Prop :=
  video_id v' = video_id v ∧ forward (status v) (status v').

(** A history of the table, latest state first, in which every job only
    moves forward from each state to the next. *)
Inductive lawful : list (list video) → Prop :=
| lawful_nil : lawful []
| lawful_one t : lawful [t]
| lawful_cons t' t ts :
    Forall2 job_step t t' → lawful (t :: ts) → lawful (t' :: t :: ts).

Definition terminal (st : string) : bool :=
  bool_decide (st = "downloaded") || bool_decide (st = "failed").

(** The ids of the jobs brought to a terminal state, in the order in which
    that happened ([j] is a journal, latest statement first). *)
Definition completed (j : list (Z * string * string)) : list Z :=
  (λ s, s.1.1) <$> filter (λ s, terminal s.1.2 = true) (reverse j).
Arguments completed : simpl never.

(** A journal segment replayed on a world, oldest statement (the last of the
    list) first. *)
Definition replay (seg : list (Z * string * string)) (w : world) : world :=
  foldr (λ s, commit_update s.1.1 s.1.2 s.2) w seg.

(** The statements one call of [launch_vrew_automation] can commit for a
    video, latest first, with the way it ends. *)
Inductive launch_shape (vid : Z) (path : string) :
  list (Z * string * string) → outcome bool → Prop :=
| shape_untouched e : launch_shape vid path [] (Raise e)
| shape_abandoned e : launch_shape vid path [(vid, "processing", "")] (Raise e)
| shape_refused : launch_shape vid path [(vid, "failed", "")] (Ret false)
| shape_failed :
    launch_shape vid path [(vid, "failed", ""); (vid, "processing", "")] (Ret false)
| shape_downloaded :
    launch_shape vid path [(vid, "downloaded", path); (vid, "processing", "")] (Ret true).

(** The automation of a video goes through and the exported file is found. *)
Definition adapter_succeeds (env : environment) (vid : Z) (t : string) : Prop :=
  import_fault env vid = None ∧ gui_fault env vid = None ∧
  path_exists env (output_path env vid t) = true.

(** The automation of a video raises an exception of class [Exception], at
    the imports or while Vrew is driven, or goes through without the exported
    file being found. *)
Definition adapter_fails (env : environment) (vid : Z) (t : string) : Prop :=
  (∃ what, import_fault env vid = Some (Exception what)) ∨
  (import_fault env vid = None ∧ ∃ what, gui_fault env vid = Some (Exception what)) ∨
  (import_fault env vid = None ∧ gui_fault env vid = None ∧
   path_exists env (output_path env vid t) = false).

(** Nothing interrupts the daemon: the database answers every access, nobody
    presses Ctrl-C during a sleep or while a video is automated. *)
Definition quiet (env : environment) : Prop :=
  (∀ n, store_up env n = true) ∧
  (∀ τ, ctrl_c env τ = false) ∧
  (∀ vid, import_fault env vid ≠ Some KeyboardInterrupt) ∧
  (∀ vid, gui_fault env vid ≠ Some KeyboardInterrupt).

(** Both counters of the status file hold integers. *)
Definition counters_numeric (w : world) : Prop :=
  ∃ p f, snapshot w !! "processed_count" = Some (JInt p) ∧
         snapshot w !! "failed_count" = Some (JInt f).

(** Every row with the given id is planned. *)
Definition all_planned (vid : Z) (t : list video) : Prop :=
  ∀ v, v ∈ t → video_id v = vid → status v = "planned".

(** A history whose jobs only move forward, with unique ids and never more
    than [c] + 1 jobs in processing. *)
Definition steady (c : nat) (tl : list (list video)) : Prop :=
  lawful tl ∧
  Forall (λ t, NoDup (video_id <$> t) ∧ (processing_count t ≤ S c)%nat) tl.

(** How single-shot mode ends. *)
Inductive shot : Type := NothingToDo | ProcessedJob | Fatal.

Definition single_shot (env : environment) (w : world) : shot :=
  match get_planned_videos env w with
  | (Raise _, _) => Fatal
  | (Ret [], _) => NothingToDo
  | (Ret ((vid, t, s) :: _), w') =>
      match launch_vrew_automation env vid t s w' with
      | (Ret _, _) => ProcessedJob
      | (Raise _, _) => Fatal
      end
  end.

Definition process_one_args : arguments :=
  {| args_status := false; args_daemon := false; args_process_one := true |}.

(** The statements of a journal that set a given status, counted. *)
Definition tally (st : string) (j : list (Z * string * string)) : Z :=
  Z.of_nat (List.length (filter (λ x, x.1.2 = st) j)).
Arguments tally : simpl never.

(** The counters of the status file agree with the journal: one job
    processed per transition to downloaded, one failed per transition to
    failed. *)
Definition counted (w : world) : Prop :=
  snapshot w !! "processed_count" = Some (JInt (tally "downloaded" (journal w))) ∧
  snapshot w !! "failed_count" = Some (JInt (tally "failed" (journal w))).

(** A row after its job was settled, if it was planned, and as it was, if
    it was not. *)
Definition settled_row (v v' : video) : Prop :=
  if decide (status v = "planned")
  then selected v' = selected v ∧ terminal (status v') = true
  else v' = v.

(** The same, for the jobs with the given ids instead of the planned ones. *)
Definition settled_ids (ids : list Z) (t t' : list video) : Prop :=
  Forall2 (λ v v', if decide (video_id v ∈ ids)
                   then selected v' = selected v ∧ terminal (status v') = true
                   else v' = v) t t'.

(** The status file names a job as the current video. *)
Definition names_a_job (w : world) : Prop :=
  ∃ vid t, snapshot w !! "current_video" = Some (JVideo vid t).

(** Nobody presses Ctrl-C, neither during a sleep nor while a video is
    automated. *)
Definition uninterrupted (env : environment) : Prop :=
  (∀ τ, ctrl_c env τ = false) ∧
  (∀ vid, import_fault env vid ≠ Some KeyboardInterrupt) ∧
  (∀ vid, gui_fault env vid ≠ Some KeyboardInterrupt).

(** A character of the ASCII range, on which [str.isalnum] is the test for
    the letters a-z, A-Z and the digits, and a character is a byte. *)
Definition is_ascii (c : ascii) : bool := (nat_of_ascii c <? 128)%nat.

(** Every character of a string satisfies a test. *)
Fixpoint all_chars (p : ascii → bool) (s : string) : bool :=
  match s with
  | EmptyString => true
  | String c s' => p c && all_chars p s'
  end.

Definition status_args : arguments :=
  {| args_status := true; args_daemon := true; args_process_one := true |}.

(** ** Running the primitives *)

(** Unfolds the program down to the oracles of the environment. *)
Ltac run_M :=
  unfold dispatch, launch_vrew_automation, try_except_Exception, import_pyautogui,
    drive_vrew, update_video_status, sqlite3_connect, update_status, get_status,
    time_sleep, py_add, mbind, M_bind, mret, M_ret, raise, gets, modify;
  cbn.

Section Runs.

Context (env : environment).

Lemma bind_run {A B} (m : M A) (f : A → M B) (w : world) :
  (m ≫= f) w = match m w with
               | (Ret a, w') => f a w'
               | (Raise e, w') => (Raise e, w')
               end.
Proof. reflexivity. Qed.

Lemma update_status_run (u : gmap string jval) (w : world) :
  update_status u w =
  (Ret tt, set_status_json (Some (<["last_update" := JTime (now w)]> (u ∪ snapshot w))) w).
Proof. reflexivity. Qed.

Lemma update_video_status_up vid st fp (w : world) :
  store_up env (store_ops w) = true →
  update_video_status env vid st fp w =
  (Ret tt, commit_update vid st fp (set_store_ops (S (store_ops w)) w)).
Proof.
  intros Hup. unfold update_video_status, sqlite3_connect.
  rewrite !bind_run. simpl. rewrite Hup. reflexivity.
Qed.

Lemma update_video_status_down vid st fp (w : world) :
  store_up env (store_ops w) = false →
  update_video_status env vid st fp w =
  (Raise (Exception "sqlite3.OperationalError"), set_store_ops (S (store_ops w)) w).
Proof.
  intros Hdown. unfold update_video_status, sqlite3_connect.
  rewrite !bind_run. simpl. rewrite Hdown. reflexivity.
Qed.

Lemma get_planned_videos_up (w : world) :
  store_up env (store_ops w) = true →
  get_planned_videos env w =
  (Ret (sql_select_planned (db w)), set_store_ops (S (store_ops w)) w).
Proof.
  intros Hup. unfold get_planned_videos, sqlite3_connect.
  rewrite !bind_run. simpl. rewrite Hup. reflexivity.
Qed.

Lemma get_planned_videos_down (w : world) :
  store_up env (store_ops w) = false →
  get_planned_videos env w =
  (Raise (Exception "sqlite3.OperationalError"), set_store_ops (S (store_ops w)) w).
Proof.
  intros Hdown. unfold get_planned_videos, sqlite3_connect.
  rewrite !bind_run. simpl. rewrite Hdown. reflexivity.
Qed.

Lemma time_sleep_run secs (w : world) :
  time_sleep env secs w =
  if ctrl_c env (now w) then (Raise KeyboardInterrupt, w)
  else (Ret tt, set_now (now w + secs) w).
Proof.
  unfold time_sleep. rewrite bind_run. simpl. destruct (ctrl_c env (now w)); reflexivity.
Qed.

End Runs.

(** ** The table under [UPDATE] *)

Lemma sql_update_ids vid st fp (t : list video) :
  video_id <$> sql_update vid st fp t = video_id <$> t.
Proof.
  unfold sql_update. rewrite <- list_fmap_compose. apply list_fmap_ext.
  intros _ v _. simpl. unfold set_row. case_decide; reflexivity.
Qed.

Lemma sql_update_absent vid st fp (t : list video) :
  (vid ∉ video_id <$> t) → sql_update vid st fp t = t.
Proof.
  unfold sql_update. induction t as [|v t IH]; intros Hnot; [reflexivity|].
  rewrite fmap_cons in Hnot. apply not_elem_of_cons in Hnot as [Hne Hnot].
  rewrite fmap_cons. f_equal; [|by apply IH].
  unfold set_row. case_decide; congruence.
Qed.

Lemma sql_update_hit vid st fp (t : list video) (v : video) :
  v ∈ sql_update vid st fp t → video_id v = vid → status v = st ∧ file_path v = fp.
Proof.
  unfold sql_update. intros Hin Hid.
  apply list_elem_of_fmap in Hin as (u & -> & _).
  unfold set_row in *. case_decide; simpl in *; [done | congruence].
Qed.

Lemma sql_update_miss vid st fp (t : list video) (v : video) :
  video_id v ≠ vid → v ∈ sql_update vid st fp t ↔ v ∈ t.
Proof.
  unfold sql_update. intros Hne. rewrite list_elem_of_fmap. split.
  - intros (u & -> & Hu). unfold set_row in *.
    case_decide; simpl in *; [congruence | done].
  - intros Hv. exists v. split; [|done]. unfold set_row. case_decide; congruence.
Qed.

Lemma sql_update_twice vid st fp st' fp' (t : list video) :
  sql_update vid st' fp' (sql_update vid st fp t) = sql_update vid st' fp' t.
Proof.
  unfold sql_update. rewrite <- list_fmap_compose. apply list_fmap_ext.
  intros _ v _. simpl. unfold set_row. repeat (case_decide; simpl in *); congruence.
Qed.

(** ** The job store operation *)

(** C5 (as stated, refuted): an [UPDATE] on an id the table does not hold
    returns normally, like a successful one, and changes nothing; there is
    no NotFound result. *)
Lemma transition_of_unknown_id_succeeds :
  (99 ∉ video_id <$> db (fresh [planned 1 "Intro"])) ∧
  (update_video_status calm 99 "failed" "" (fresh [planned 1 "Intro"])).1 = Ret tt ∧
  db (update_video_status calm 99 "failed" "" (fresh [planned 1 "Intro"])).2
  = [planned 1 "Intro"].
Proof.
  split; [|split; reflexivity].
  cbn. rewrite list_elem_of_singleton. discriminate.
Qed.

(** C5 (amended): with the database reachable and an id that SQLite can
    store (a signed 64-bit integer), [update_video_status] always returns
    normally, whether a row has the id or not.  It commits exactly one
    [UPDATE], which sets status and file path of the rows with the given id
    together and leaves all other rows as they were; when no row has the id
    the table is unchanged. *)
Theorem update_video_status_single_write env vid st fp (w : world) :
  sqlite_integer vid →
  store_up env (store_ops w) = true →
  (update_video_status env vid st fp w).1 = Ret tt ∧
  timeline (update_video_status env vid st fp w).2
  = sql_update vid st fp (db w) :: timeline w ∧
  journal (update_video_status env vid st fp w).2 = (vid, st, fp) :: journal w ∧
  (∀ v, v ∈ db (update_video_status env vid st fp w).2 → video_id v = vid →
        status v = st ∧ file_path v = fp) ∧
  (∀ v, video_id v ≠ vid →
        v ∈ db (update_video_status env vid st fp w).2 ↔ v ∈ db w) ∧
  ((vid ∉ video_id <$> db w) → db (update_video_status env vid st fp w).2 = db w).
Proof.
  intros _ Hup. rewrite (update_video_status_up env vid st fp w Hup). simpl.
  split_and!; [reflexivity | reflexivity | reflexivity | | | ].
  - intros v Hv Hid. by eapply sql_update_hit.
  - intros v Hne. by apply sql_update_miss.
  - apply sql_update_absent.
Qed.

Lemma update_video_status_single_write_witness :
  sqlite_integer 99 ∧
  store_up calm (store_ops (fresh [planned 1 "Intro"])) = true ∧
  (update_video_status calm 99 "failed" "" (fresh [planned 1 "Intro"])).1 = Ret tt ∧
  journal (update_video_status calm 1 "failed" "" (fresh [planned 1 "Intro"])).2
  = [(1, "failed", "")].
Proof.
  assert (sqlite_integer 99) as H99 by (unfold sqlite_integer; lia).
  assert (sqlite_integer 1) as H1 by (unfold sqlite_integer; lia).
  split_and!; [exact H99 | reflexivity | |].
  - apply (update_video_status_single_write calm 99 "failed" ""
             (fresh [planned 1 "Intro"]) H99). reflexivity.
  - apply (update_video_status_single_write calm 1 "failed" ""
             (fresh [planned 1 "Intro"]) H1). reflexivity.
Defined.

(** ** Reading the status file *)

Lemma snapshot_set_status_json (m : gmap string jval) (w : world) :
  snapshot (set_status_json (Some m) w) = m.
Proof. reflexivity. Qed.

Lemma snapshot_after_update_status (u : gmap string jval) (w : world) :
  snapshot (update_status u w).2 = <["last_update" := JTime (now w)]> (u ∪ snapshot w).
Proof. reflexivity. Qed.

(** A key the update gives is read back; [last_update] is the stamp. *)
Lemma lookup_updated (u m : gmap string jval) (t : Z) (k : string) (x : jval) :
  k ≠ "last_update" → u !! k = Some x →
  (<["last_update" := JTime t]> (u ∪ m)) !! k = Some x.
Proof.
  intros Hk Hu. rewrite lookup_insert_ne by done. by apply lookup_union_Some_l.
Qed.

(** A key the update does not give keeps its value. *)
Lemma lookup_not_updated (u m : gmap string jval) (t : Z) (k : string) :
  k ≠ "last_update" → u !! k = None →
  (<["last_update" := JTime t]> (u ∪ m)) !! k = m !! k.
Proof.
  intros Hk Hu. rewrite lookup_insert_ne by done. by apply lookup_union_r.
Qed.

(** ** Starting the daemon without Vrew *)

(** C10: when the Vrew executable is absent, [daemon_mode] returns at once.
    The one write it has made by then set running to true and both counters
    to zero; the [finally] clause is not reached, so the status file keeps
    saying that the daemon runs.  No job is touched. *)
Theorem daemon_without_vrew_claims_running env passes (w : world) :
  check_vrew_installed env = false →
  daemon_mode env passes w
  = (Exited (Ret tt),
     (update_status {[ "running" := JBool true; "processed_count" := JInt 0;
                       "failed_count" := JInt 0 ]} w).2) ∧
  snapshot (daemon_mode env passes w).2 !! "running" = Some (JBool true) ∧
  snapshot (daemon_mode env passes w).2 !! "processed_count" = Some (JInt 0) ∧
  snapshot (daemon_mode env passes w).2 !! "failed_count" = Some (JInt 0) ∧
  timeline (daemon_mode env passes w).2 = timeline w.
Proof.
  intros Habsent. unfold daemon_mode. rewrite Habsent. simpl.
  split_and!; try reflexivity; rewrite snapshot_set_status_json;
    by apply lookup_updated.
Qed.

Lemma daemon_without_vrew_claims_running_witness :
  check_vrew_installed bare = false ∧
  snapshot (daemon_mode bare 3 (fresh [planned 1 "Intro"])).2 !! "running"
  = Some (JBool true).
Proof.
  split; [reflexivity|].
  apply (daemon_without_vrew_claims_running bare 3 (fresh [planned 1 "Intro"])).
  reflexivity.
Defined.

(** ** Single-shot mode *)

(** C9 (as stated, refuted): with nothing planned and with one job planned
    and processed, single-shot mode ends differently but hands the same
    status, zero, to the shell. *)
Lemma single_shot_exit_status_is_blind :
  single_shot calm (fresh []) = NothingToDo ∧
  single_shot calm (fresh [planned 1 "Intro"]) = ProcessedJob ∧
  exit_of (main calm 0 process_one_args (fresh [])).1
  = exit_of (main calm 0 process_one_args (fresh [planned 1 "Intro"])).1.
Proof. split_and!; reflexivity. Qed.

(** C9 (amended): the exit status of single-shot mode tells a fatal error
    from the rest and nothing more.  It is zero both when nothing is planned
    and when a job was processed, whether that job ended downloaded or
    failed, and non-zero exactly when an exception escapes. *)
Theorem single_shot_exit_status env passes (w : world) :
  exit_of (main env passes process_one_args w).1
  = Some (match single_shot env w with
          | Fatal => ExitNonZero
          | NothingToDo | ProcessedJob => ExitZero
          end).
Proof.
  unfold main, single_shot, process_one. simpl. rewrite bind_run.
  destruct (get_planned_videos env w) as [[[|[[vid t] s] rest]|e] w']; simpl;
    try reflexivity.
  destruct (launch_vrew_automation env vid t s w') as [[b|e] w'']; reflexivity.
Qed.

(** ** What one automation run commits *)

Lemma launch_commits env vid t s (w : world) :
  ∃ seg,
    launch_shape vid (output_path env vid t) seg (launch_vrew_automation env vid t s w).1 ∧
    timeline (launch_vrew_automation env vid t s w).2 = timeline (replay seg w) ∧
    journal (launch_vrew_automation env vid t s w).2 = journal (replay seg w).
Proof.
  run_M.
  destruct (import_fault env vid) as [[|what]|]; cbn.
  - exists []. split_and!; [constructor | reflexivity | reflexivity].
  - destruct (store_up env (store_ops w)); cbn.
    + exists [(vid, "failed", "")]. split_and!; [constructor | reflexivity | reflexivity].
    + exists []. split_and!; [constructor | reflexivity | reflexivity].
  - destruct (store_up env (store_ops w)) eqn:Hup0; cbn.
    + destruct (gui_fault env vid) as [[|what]|]; cbn.
      * exists [(vid, "processing", "")].
        split_and!; [constructor | reflexivity | reflexivity].
      * destruct (store_up env (S (store_ops w))); cbn.
        -- exists [(vid, "failed", ""); (vid, "processing", "")].
           split_and!; [constructor | reflexivity | reflexivity].
        -- exists [(vid, "processing", "")].
           split_and!; [constructor | reflexivity | reflexivity].
      * destruct (path_exists env (output_path env vid t)); cbn;
          destruct (store_up env (S (store_ops w))); cbn;
          try (destruct (store_up env (S (S (store_ops w)))); cbn);
          first
            [ exists [(vid, "downloaded", output_path env vid t); (vid, "processing", "")];
              split_and!; [constructor | reflexivity | reflexivity]
            | exists [(vid, "failed", ""); (vid, "processing", "")];
              split_and!; [constructor | reflexivity | reflexivity]
            | exists [(vid, "processing", "")];
              split_and!; [constructor | reflexivity | reflexivity] ].
    + destruct (store_up env (S (store_ops w))); cbn.
      * exists [(vid, "failed", "")]. split_and!; [constructor | reflexivity | reflexivity].
      * exists []. split_and!; [constructor | reflexivity | reflexivity].
Qed.

(** ** One dispatch by the daemon *)

Lemma launch_when_adapter_succeeds env vid t s (w : world) :
  adapter_succeeds env vid t →
  store_up env (store_ops w) = true → store_up env (S (store_ops w)) = true →
  launch_vrew_automation env vid t s w
  = (Ret true,
     commit_update vid "downloaded" (output_path env vid t)
       (set_store_ops (S (S (store_ops w)))
          (set_now (now w + gui_seconds env vid)
             (set_status_json
                (Some (<["last_update" := JTime (now w)]>
                         ({[ "current_video" := JVideo vid t ]} ∪ snapshot w)))
                (commit_update vid "processing" "" (set_store_ops (S (store_ops w)) w)))))).
Proof.
  intros (Himp & Hgui & Hfile) Hup0 Hup1. run_M.
  rewrite Himp. cbn. rewrite Hup0. cbn. rewrite Hgui. cbn. rewrite Hfile. cbn.
  rewrite Hup1. reflexivity.
Qed.

Lemma launch_when_adapter_fails env vid t s (w : world) :
  adapter_fails env vid t →
  store_up env (store_ops w) = true → store_up env (S (store_ops w)) = true →
  ∃ w1, launch_vrew_automation env vid t s w = (Ret false, w1) ∧
        db w1 = sql_update vid "failed" "" (db w) ∧
        snapshot w1 !! "processed_count" = snapshot w !! "processed_count" ∧
        snapshot w1 !! "failed_count" = snapshot w !! "failed_count".
Proof.
  intros [[what Himp]|[[Himp [what Hgui]]|(Himp & Hgui & Hfile)]] Hup0 Hup1; run_M.
  - rewrite Himp. cbn. rewrite Hup0. cbn. eexists. split; [reflexivity|]. cbn.
    split_and!; reflexivity.
  - rewrite Himp. cbn. rewrite Hup0. cbn. rewrite Hgui. cbn. rewrite Hup1. cbn.
    eexists. split; [reflexivity|]. cbn.
    split_and!; [apply sql_update_twice | |]; by apply lookup_not_updated.
  - rewrite Himp. cbn. rewrite Hup0. cbn. rewrite Hgui. cbn. rewrite Hfile. cbn.
    rewrite Hup1. cbn. eexists. split; [reflexivity|]. cbn.
    split_and!; [apply sql_update_twice | |]; by apply lookup_not_updated.
Qed.

Lemma dispatch_run env vid t s (w : world) :
  dispatch env (vid, t, s) w
  = match launch_vrew_automation env vid t s w with
    | (Ret b, w1) =>
        let key := if b then "processed_count" else "failed_count" in
        match dict_get (snapshot w1) key (JInt 0) with
        | JInt k => time_sleep env 5 (update_status {[ key := JInt (k + 1) ]} w1).2
        | JBool c => time_sleep env 5 (update_status {[ key := JInt (Z.b2z c + 1) ]} w1).2
        | _ => (Raise (Exception "TypeError"), w1)
        end
    | (Raise e, w1) => (Raise e, w1)
    end.
Proof.
  unfold dispatch. rewrite bind_run.
  destruct (launch_vrew_automation env vid t s w) as [[[|]|e] w1]; [| |reflexivity].
  - rewrite !bind_run. cbn -[time_sleep update_status].
    unfold dict_get. fold (snapshot w1).
    destruct (default (JInt 0) (snapshot w1 !! "processed_count")); reflexivity.
  - rewrite !bind_run. cbn -[time_sleep update_status].
    unfold dict_get. fold (snapshot w1).
    destruct (default (JInt 0) (snapshot w1 !! "failed_count")); reflexivity.
Qed.

Lemma time_sleep_store env secs (w : world) :
  db (time_sleep env secs w).2 = db w ∧
  committed (time_sleep env secs w).2 = committed w ∧
  journal (time_sleep env secs w).2 = journal w ∧
  status_json (time_sleep env secs w).2 = status_json w.
Proof. rewrite time_sleep_run. destruct (ctrl_c env (now w)); done. Qed.

(** C2: when the automation of a planned video goes through and the exported
    file is found (the database answering the two writes), then after the
    dispatch every row of that video is [downloaded] with the exported path
    as its file path, the table holds the same ids as before,
    [processed_count] is one more than it read before and [failed_count] is
    what it was. *)
Theorem dispatch_success_marks_downloaded env vid t s (w : world) (p : Z) :
  adapter_succeeds env vid t →
  store_up env (store_ops w) = true → store_up env (S (store_ops w)) = true →
  dict_get (snapshot w) "processed_count" (JInt 0) = JInt p →
  (∀ v, v ∈ db (dispatch env (vid, t, s) w).2 → video_id v = vid →
        status v = "downloaded" ∧ file_path v = output_path env vid t) ∧
  video_id <$> db (dispatch env (vid, t, s) w).2 = video_id <$> db w ∧
  dict_get (snapshot (dispatch env (vid, t, s) w).2) "processed_count" (JInt 0)
  = JInt (p + 1) ∧
  snapshot (dispatch env (vid, t, s) w).2 !! "failed_count"
  = snapshot w !! "failed_count".
Proof.
  intros Hok Hup0 Hup1 Hcount. rewrite dispatch_run.
  rewrite (launch_when_adapter_succeeds env vid t s w Hok Hup0 Hup1).
  cbv zeta.
  set (w1 := commit_update _ _ _ _).
  assert (snapshot w1 = <["last_update" := JTime (now w)]>
                          ({[ "current_video" := JVideo vid t ]} ∪ snapshot w))
    as Hsnap by reflexivity.
  assert (db w1 = sql_update vid "downloaded" (output_path env vid t)
                    (sql_update vid "processing" "" (db w)))
    as Htable by reflexivity.
  clearbody w1.
  assert (dict_get (snapshot w1) "processed_count" (JInt 0) = JInt p) as ->.
  { unfold dict_get in *. rewrite <- Hcount, Hsnap. by rewrite lookup_not_updated. }
  destruct (time_sleep_store env 5
              (update_status {[ "processed_count" := JInt (p + 1) ]} w1).2)
    as (Hdb & _ & _ & Hst).
  unfold snapshot at 1 2. rewrite Hst, Hdb.
  fold (snapshot (update_status {[ "processed_count" := JInt (p + 1) ]} w1).2).
  rewrite snapshot_after_update_status.
  change (db (update_status {[ "processed_count" := JInt (p + 1) ]} w1).2) with (db w1).
  rewrite Htable, Hsnap.
  split_and!.
  - intros v Hv Hid. by eapply sql_update_hit.
  - by rewrite !sql_update_ids.
  - unfold dict_get. by rewrite (lookup_updated _ _ _ _ (JInt (p + 1))).
  - by rewrite !lookup_not_updated.
Qed.

Lemma dispatch_success_marks_downloaded_witness :
  adapter_succeeds calm 1 "Intro" ∧
  store_up calm 0 = true ∧ store_up calm 1 = true ∧
  dict_get (snapshot (fresh [planned 1 "Intro"])) "processed_count" (JInt 0) = JInt 0 ∧
  dict_get (snapshot (dispatch calm (1, "Intro", "Hello world")
                        (fresh [planned 1 "Intro"])).2) "processed_count" (JInt 0)
  = JInt (0 + 1).
Proof.
  split_and!; [repeat split | reflexivity | reflexivity | reflexivity |].
  apply (dispatch_success_marks_downloaded calm 1 "Intro" "Hello world"
           (fresh [planned 1 "Intro"]) 0); [repeat split | reflexivity..].
Defined.

(** The scenario of the specification, run through the daemon: job 1 ends
    [downloaded] with the exported path, one job processed, none failed. *)
Example daemon_scenario_success :
  db (daemon_mode calm 1 (fresh [planned 1 "Intro"])).2
  = [{| video_id := 1; title := "Intro"; script := "Hello world";
        status := "downloaded"; file_path := "/out/video_1_Intro.mp4" |}] ∧
  snapshot (daemon_mode calm 1 (fresh [planned 1 "Intro"])).2 !! "processed_count"
  = Some (JInt 1) ∧
  snapshot (daemon_mode calm 1 (fresh [planned 1 "Intro"])).2 !! "failed_count"
  = Some (JInt 0).
Proof. split_and!; reflexivity. Qed.

(** C3: when the automation of a planned video fails, by raising an
    exception of class [Exception] or by leaving no exported file (the
    database answering the writes, nobody pressing Ctrl-C), then after the
    dispatch every row of that video is [failed] with an empty file path,
    [failed_count] is one more than it read before, [processed_count] is what
    it was, and the loop goes on with the next planned job. *)
Theorem dispatch_failure_marks_failed env vid t s rest (w : world) (f : Z) :
  adapter_fails env vid t →
  store_up env (store_ops w) = true → store_up env (S (store_ops w)) = true →
  (∀ τ, ctrl_c env τ = false) →
  dict_get (snapshot w) "failed_count" (JInt 0) = JInt f →
  (dispatch env (vid, t, s) w).1 = Ret tt ∧
  for_video_in env ((vid, t, s) :: rest) w
  = for_video_in env rest (dispatch env (vid, t, s) w).2 ∧
  (∀ v, v ∈ db (dispatch env (vid, t, s) w).2 → video_id v = vid →
        status v = "failed" ∧ file_path v = "") ∧
  video_id <$> db (dispatch env (vid, t, s) w).2 = video_id <$> db w ∧
  dict_get (snapshot (dispatch env (vid, t, s) w).2) "failed_count" (JInt 0)
  = JInt (f + 1) ∧
  snapshot (dispatch env (vid, t, s) w).2 !! "processed_count"
  = snapshot w !! "processed_count".
Proof.
  intros Hfails Hup0 Hup1 Hquiet Hcount.
  assert (for_video_in env ((vid, t, s) :: rest) w
          = match dispatch env (vid, t, s) w with
            | (Ret _, w') => for_video_in env rest w'
            | (Raise e, w') => (Raise e, w')
            end) as Hloop by reflexivity.
  rewrite Hloop. clear Hloop. rewrite dispatch_run.
  destruct (launch_when_adapter_fails env vid t s w Hfails Hup0 Hup1)
    as (w1 & -> & Htable & Hprocessed & Hfailed).
  cbv zeta.
  assert (dict_get (snapshot w1) "failed_count" (JInt 0) = JInt f) as ->.
  { unfold dict_get in *. by rewrite Hfailed. }
  rewrite time_sleep_run, Hquiet. cbn [fst snd].
  change (db (set_now _ (update_status _ w1).2)) with (db w1).
  change (snapshot (set_now _ (update_status {[ "failed_count" := JInt (f + 1) ]} w1).2))
    with (snapshot (update_status {[ "failed_count" := JInt (f + 1) ]} w1).2).
  rewrite snapshot_after_update_status, Htable.
  split_and!; [reflexivity | reflexivity | | | |].
  - intros v Hv Hid. by eapply sql_update_hit.
  - by rewrite sql_update_ids.
  - unfold dict_get. by rewrite (lookup_updated _ _ _ _ (JInt (f + 1))).
  - by rewrite lookup_not_updated.
Qed.

Lemma dispatch_failure_marks_failed_witness :
  adapter_fails clumsy 1 "Intro" ∧
  (∀ τ, ctrl_c clumsy τ = false) ∧
  status <$> db (dispatch clumsy (1, "Intro", "Hello world")
                   (fresh [planned 1 "Intro"; planned 2 "Outro"])).2
  = ["failed"; "planned"] ∧
  for_video_in clumsy [(1, "Intro", "Hello world"); (2, "Outro", "Hello world")]
    (fresh [planned 1 "Intro"; planned 2 "Outro"])
  = for_video_in clumsy [(2, "Outro", "Hello world")]
      (dispatch clumsy (1, "Intro", "Hello world")
         (fresh [planned 1 "Intro"; planned 2 "Outro"])).2.
Proof.
  assert (adapter_fails clumsy 1 "Intro") as Hfails.
  { right; left. split; [reflexivity|]. by eexists. }
  split_and!; [exact Hfails | reflexivity | reflexivity |].
  apply (dispatch_failure_marks_failed clumsy 1 "Intro" "Hello world"
           [(2, "Outro", "Hello world")]
           (fresh [planned 1 "Intro"; planned 2 "Outro"]) 0 Hfails);
    reflexivity.
Defined.

(** The second scenario of the specification, run through the daemon: the
    automation raises for job 2, which ends [failed] without a file path, and
    job 3 is dispatched after it. *)
Example daemon_scenario_failure :
  db (daemon_mode clumsy 1 (fresh [planned 2 "Intro"; planned 3 "Outro"])).2
  = [{| video_id := 2; title := "Intro"; script := "Hello world";
        status := "failed"; file_path := "" |};
     {| video_id := 3; title := "Outro"; script := "Hello world";
        status := "failed"; file_path := "" |}] ∧
  (daemon_mode clumsy 1 (fresh [planned 2 "Intro"; planned 3 "Outro"])).1 = Looping ∧
  snapshot (daemon_mode clumsy 1 (fresh [planned 2 "Intro"; planned 3 "Outro"])).2
    !! "failed_count" = Some (JInt 2).
Proof. split_and!; reflexivity. Qed.

(** ** The job in flight in the status file *)

Lemma launch_names_current_video env vid t s (w : world) :
  import_fault env vid = None → store_up env (store_ops w) = true →
  snapshot (launch_vrew_automation env vid t s w).2 !! "current_video"
  = Some (JVideo vid t).
Proof.
  intros Himp Hup0. run_M. rewrite Himp. cbn. rewrite Hup0. cbn.
  destruct (gui_fault env vid) as [[|what]|]; cbn;
    [ | destruct (store_up env (S (store_ops w))); cbn
      | destruct (path_exists env (output_path env vid t)); cbn;
        destruct (store_up env (S (store_ops w))); cbn;
        try (destruct (store_up env (S (S (store_ops w)))); cbn) ];
    by apply lookup_updated.
Qed.

(** Counting and pausing leave every key but the counters and the stamp. *)
Lemma dispatch_keeps_key env vid t s (w : world) (k : string) :
  k ≠ "processed_count" → k ≠ "failed_count" → k ≠ "last_update" →
  snapshot (dispatch env (vid, t, s) w).2 !! k
  = snapshot (launch_vrew_automation env vid t s w).2 !! k.
Proof.
  intros Hp Hf Hl. rewrite dispatch_run.
  destruct (launch_vrew_automation env vid t s w) as [[b|e] w1]; [|reflexivity].
  cbv zeta.
  destruct (dict_get (snapshot w1) (if b then "processed_count" else "failed_count")
              (JInt 0)); try reflexivity.
  - destruct (time_sleep_store env 5
                (update_status {[ (if b then "processed_count" else "failed_count")
                                  := JInt (Z.b2z b0 + 1) ]} w1).2) as (_ & _ & _ & Hst).
    unfold snapshot at 1. rewrite Hst.
    fold (snapshot (update_status {[ (if b then "processed_count" else "failed_count")
                                     := JInt (Z.b2z b0 + 1) ]} w1).2).
    rewrite snapshot_after_update_status. apply lookup_not_updated; [done|].
    apply lookup_singleton_ne. by destruct b.
  - destruct (time_sleep_store env 5
                (update_status {[ (if b then "processed_count" else "failed_count")
                                  := JInt (n + 1) ]} w1).2) as (_ & _ & _ & Hst).
    unfold snapshot at 1. rewrite Hst.
    fold (snapshot (update_status {[ (if b then "processed_count" else "failed_count")
                                     := JInt (n + 1) ]} w1).2).
    rewrite snapshot_after_update_status. apply lookup_not_updated; [done|].
    apply lookup_singleton_ne. by destruct b.
Qed.

(** C7 (as stated, refuted): after the dispatch of job 1 has completed, and
    still after the whole pass while the daemon waits for the next poll, the
    status file names job 1 as the current video. *)
Lemma current_video_survives_dispatch :
  (dispatch calm (1, "Intro", "Hello world") (fresh [planned 1 "Intro"])).1 = Ret tt ∧
  snapshot (dispatch calm (1, "Intro", "Hello world") (fresh [planned 1 "Intro"])).2
    !! "current_video" = Some (JVideo 1 "Intro") ∧
  (daemon_mode calm 2 (fresh [planned 1 "Intro"])).1 = Looping ∧
  snapshot (daemon_mode calm 2 (fresh [planned 1 "Intro"])).2 !! "current_video"
  = Some (JVideo 1 "Intro").
Proof. split_and!; reflexivity. Qed.

(** ** The database going away *)

Lemma while_True_add env (k m : nat) (w : world) :
  while_True env (k + m) w
  = match while_True env k w with
    | (Ret _, w') => while_True env m w'
    | (Raise e, w') => (Raise e, w')
    end.
Proof.
  revert w. induction k as [|k IH]; intros w; [reflexivity|].
  cbn [Nat.add while_True]. rewrite !bind_run.
  destruct (poll env w) as [[[]|e] w1]; [apply IH | reflexivity].
Qed.

Lemma poll_store_down env (w : world) :
  store_up env (store_ops w) = false →
  poll env w
  = (Raise (Exception "sqlite3.OperationalError"), set_store_ops (S (store_ops w)) w).
Proof.
  intros Hdown. unfold poll. rewrite !bind_run.
  by rewrite (get_planned_videos_down env w Hdown).
Qed.

(** C6 (as stated, refuted): the database is unreachable for the first
    access only and answers every later one, yet [daemon_mode] does not reach
    a second poll: it raises the database error, with job 1 still planned. *)
Lemma store_outage_ends_daemon :
  store_up outage 0 = false ∧ store_up outage 1 = true ∧
  (daemon_mode outage 5 (fresh [planned 1 "Intro"])).1
  = Exited (Raise (Exception "sqlite3.OperationalError")) ∧
  db (daemon_mode outage 5 (fresh [planned 1 "Intro"])).2 = [planned 1 "Intro"] ∧
  store_ops (daemon_mode outage 5 (fresh [planned 1 "Intro"])).2 = 1%nat.
Proof. split_and!; reflexivity. Qed.

(** C6 (amended): when the database is unreachable at the moment the daemon
    polls for planned jobs, the error is not caught in the loop.  The pass and
    the run end there with the database exception; before it propagates the
    [finally] clause writes running false and clears [current_video].  No
    job is touched and no further poll is made. *)
Theorem store_outage_at_poll_is_fatal env (k n : nat) (w wk : world) :
  check_vrew_installed env = true →
  while_True env k
    (update_status {[ "running" := JBool true; "processed_count" := JInt 0;
                      "failed_count" := JInt 0 ]} w).2
  = (Ret tt, wk) →
  store_up env (store_ops wk) = false →
  daemon_mode env (k + S n) w
  = (Exited (Raise (Exception "sqlite3.OperationalError")),
     (finally_stopped (set_store_ops (S (store_ops wk)) wk)).2) ∧
  snapshot (daemon_mode env (k + S n) w).2 !! "running" = Some (JBool false) ∧
  snapshot (daemon_mode env (k + S n) w).2 !! "current_video" = Some JNull ∧
  timeline (daemon_mode env (k + S n) w).2 = timeline wk.
Proof.
  intros Hvrew Hloop Hdown.
  assert (daemon_mode env (k + S n) w
          = (Exited (Raise (Exception "sqlite3.OperationalError")),
             (finally_stopped (set_store_ops (S (store_ops wk)) wk)).2)) as ->.
  { unfold daemon_mode. rewrite Hvrew. cbn [negb].
    rewrite while_True_add, Hloop. cbn [while_True]. rewrite bind_run.
    by rewrite (poll_store_down env wk Hdown). }
  split_and!; [reflexivity | | | reflexivity];
    cbn [snd]; unfold finally_stopped; rewrite snapshot_after_update_status;
    by apply lookup_updated.
Qed.

Lemma store_outage_at_poll_is_fatal_witness :
  check_vrew_installed outage = true ∧
  store_up outage 0 = false ∧
  (daemon_mode outage (0 + 5) (fresh [planned 1 "Intro"])).1
  = Exited (Raise (Exception "sqlite3.OperationalError")).
Proof.
  split_and!; [reflexivity | reflexivity |].
  pose proof (store_outage_at_poll_is_fatal outage 0 4 (fresh [planned 1 "Intro"])
                _ eq_refl eq_refl eq_refl) as [Hrun _].
  by rewrite Hrun.
Defined.

(** ** The query for planned jobs *)

Global Instance by_id_total : Total by_id.
Proof. intros a b. unfold by_id. lia. Qed.

Global Instance by_id_trans : Transitive by_id.
Proof. intros a b c. unfold by_id. lia. Qed.

Lemma sql_select_planned_perm (t : list video) :
  sql_select_planned t ≡ₚ selected <$> filter (λ v, status v = "planned") t.
Proof. apply merge_sort_Permutation. Qed.

Lemma sql_select_planned_sorted (t : list video) :
  StronglySorted by_id (sql_select_planned t).
Proof. apply StronglySorted_merge_sort; apply _. Qed.

Lemma sql_select_planned_elem (t : list video) (x : Z * string * string) :
  x ∈ sql_select_planned t ↔ ∃ v, v ∈ t ∧ status v = "planned" ∧ x = selected v.
Proof.
  rewrite sql_select_planned_perm, list_elem_of_fmap. split.
  - intros (v & -> & Hv). apply list_elem_of_filter in Hv as [Hst Hv]. eauto.
  - intros (v & Hv & Hst & ->). exists v. split; [done|].
    by apply list_elem_of_filter.
Qed.

Lemma sql_select_planned_none (t : list video) :
  (∀ v, v ∈ t → status v ≠ "planned") → sql_select_planned t = [].
Proof.
  intros Hnone. apply Permutation_nil_r. rewrite sql_select_planned_perm.
  assert (filter (λ v, status v = "planned") t = []) as ->; [|done].
  induction t as [|v t IH]; [reflexivity|].
  rewrite filter_cons. destruct (decide (status v = "planned")) as [Hst|_].
  - exfalso. by apply (Hnone v); [left|].
  - apply IH. intros u Hu. apply Hnone. by right.
Qed.

(** ** The order of dispatch *)

Lemma completed_cons (x : Z * string * string) (j : list (Z * string * string)) :
  completed (x :: j) = completed j ++ (if terminal x.1.2 then [x.1.1] else []).
Proof.
  unfold completed. rewrite reverse_cons, filter_app, fmap_app. f_equal.
  rewrite filter_cons, filter_nil. case_decide as Hterm.
  - by rewrite Hterm.
  - by destruct (terminal x.1.2).
Qed.

Lemma launch_quiet env vid t s (w : world) :
  quiet env →
  ∃ b st fp,
    (launch_vrew_automation env vid t s w).1 = Ret b ∧
    terminal st = true ∧
    db (launch_vrew_automation env vid t s w).2 = sql_update vid st fp (db w) ∧
    completed (journal (launch_vrew_automation env vid t s w).2)
    = completed (journal w) ++ [vid] ∧
    snapshot (launch_vrew_automation env vid t s w).2 !! "processed_count"
    = snapshot w !! "processed_count" ∧
    snapshot (launch_vrew_automation env vid t s w).2 !! "failed_count"
    = snapshot w !! "failed_count".
Proof.
  intros (Hup & _ & Himp & Hgui). run_M.
  destruct (import_fault env vid) as [[|what]|] eqn:Hi; cbn;
    [by destruct (Himp vid) | |]; rewrite Hup; cbn.
  { exists false, "failed", "". split_and!; try reflexivity.
    rewrite !completed_cons; cbn; by rewrite ?app_nil_r. }
  destruct (gui_fault env vid) as [[|what]|] eqn:Hg; cbn;
    [by destruct (Hgui vid) | |].
  { rewrite Hup. cbn. exists false, "failed", "".
    split_and!; try reflexivity;
      [apply sql_update_twice | | by apply lookup_not_updated
       | by apply lookup_not_updated].
    rewrite !completed_cons; cbn; by rewrite ?app_nil_r. }
  destruct (path_exists env (output_path env vid t)); cbn; rewrite Hup; cbn.
  - exists true, "downloaded", (output_path env vid t).
    split_and!; try reflexivity;
      [apply sql_update_twice | | by apply lookup_not_updated
       | by apply lookup_not_updated].
    rewrite !completed_cons; cbn; by rewrite ?app_nil_r.
  - exists false, "failed", "".
    split_and!; try reflexivity;
      [apply sql_update_twice | | by apply lookup_not_updated
       | by apply lookup_not_updated].
    rewrite !completed_cons; cbn; by rewrite ?app_nil_r.
Qed.

Lemma dispatch_quiet env vid t s (w : world) :
  quiet env → counters_numeric w →
  (dispatch env (vid, t, s) w).1 = Ret tt ∧
  counters_numeric (dispatch env (vid, t, s) w).2 ∧
  completed (journal (dispatch env (vid, t, s) w).2) = completed (journal w) ++ [vid] ∧
  ∃ st fp, terminal st = true ∧
           db (dispatch env (vid, t, s) w).2 = sql_update vid st fp (db w).
Proof.
  intros Hquiet (p & f & Hp & Hf).
  destruct (launch_quiet env vid t s w Hquiet)
    as (b & st & fp & Hret & Hterm & Hdb & Hdone & Hp1 & Hf1).
  rewrite dispatch_run.
  destruct (launch_vrew_automation env vid t s w) as [r w1].
  cbn [fst snd] in *. subst r. cbv zeta.
  rewrite Hp in Hp1. rewrite Hf in Hf1.
  destruct Hquiet as (_ & Hsleep & _).
  destruct b; unfold dict_get.
  - rewrite Hp1. cbn [from_option id]. rewrite time_sleep_run, Hsleep. cbn [fst snd].
    split_and!; [reflexivity | | exact Hdone | by exists st, fp].
    exists (p + 1), f.
    change (snapshot (set_now _ (update_status ?u w1).2))
      with (snapshot (update_status u w1).2).
    rewrite snapshot_after_update_status. split.
    + by apply lookup_updated.
    + by rewrite lookup_not_updated.
  - rewrite Hf1. cbn [from_option id]. rewrite time_sleep_run, Hsleep. cbn [fst snd].
    split_and!; [reflexivity | | exact Hdone | by exists st, fp].
    exists p, (f + 1).
    change (snapshot (set_now _ (update_status ?u w1).2))
      with (snapshot (update_status u w1).2).
    rewrite snapshot_after_update_status. split.
    + by rewrite lookup_not_updated.
    + by apply lookup_updated.
Qed.

Lemma terminal_not_planned (st : string) : terminal st = true → st ≠ "planned".
Proof. intros Hterm ->. discriminate. Qed.

Lemma for_video_in_quiet env (videos : list (Z * string * string)) (w : world) :
  quiet env → counters_numeric w →
  (for_video_in env videos w).1 = Ret tt ∧
  counters_numeric (for_video_in env videos w).2 ∧
  completed (journal (for_video_in env videos w).2)
  = completed (journal w) ++ videos.*1.*1 ∧
  (∀ v, v ∈ db (for_video_in env videos w).2 → status v = "planned" →
        v ∈ db w ∧ video_id v ∉ videos.*1.*1).
Proof.
  intros Hquiet. revert w. induction videos as [|[[vid t] s] rest IH]; intros w Hnum.
  - cbn. split_and!; [reflexivity | done | by rewrite app_nil_r |].
    intros v Hv _. split; [done | apply not_elem_of_nil].
  - destruct (dispatch_quiet env vid t s w Hquiet Hnum)
      as (Hret & Hnum1 & Hdone & st & fp & Hterm & Hdb).
    cbn [for_video_in]. rewrite bind_run.
    destruct (dispatch env (vid, t, s) w) as [r w1]. cbn [fst snd] in *. subst r.
    destruct (IH w1 Hnum1) as (Hret' & Hnum' & Hdone' & Hleft).
    split_and!; [done | done | |].
    + rewrite Hdone', Hdone, !fmap_cons. cbn. by rewrite <- app_assoc.
    + intros v Hv Hst. destruct (Hleft v Hv Hst) as [Hv1 Hnot].
      rewrite Hdb in Hv1.
      assert (video_id v ≠ vid) as Hne.
      { intros Hid. destruct (sql_update_hit _ _ _ _ _ Hv1 Hid) as [Hst' _].
        apply (terminal_not_planned st Hterm). congruence. }
      split; [by apply sql_update_miss in Hv1|].
      rewrite !fmap_cons. apply not_elem_of_cons. by split.
Qed.

Lemma poll_run env (w : world) :
  poll env w
  = match get_planned_videos env w with
    | (Ret videos, w0) =>
        match for_video_in env videos w0 with
        | (Ret _, w1) => time_sleep env 60 w1
        | (Raise e, w1) => (Raise e, w1)
        end
    | (Raise e, w0) => (Raise e, w0)
    end.
Proof.
  unfold poll. rewrite bind_run.
  destruct (get_planned_videos env w) as [[videos|e] w0]; [|reflexivity].
  by destruct videos.
Qed.

Lemma poll_quiet env (w : world) :
  quiet env → counters_numeric w →
  (poll env w).1 = Ret tt ∧
  counters_numeric (poll env w).2 ∧
  completed (journal (poll env w).2)
  = completed (journal w) ++ (sql_select_planned (db w)).*1.*1 ∧
  (∀ v, v ∈ db (poll env w).2 → status v ≠ "planned").
Proof.
  intros Hquiet Hnum. rewrite poll_run.
  rewrite get_planned_videos_up by apply Hquiet.
  set (w0 := set_store_ops _ w).
  destruct (for_video_in_quiet env (sql_select_planned (db w)) w0 Hquiet Hnum)
    as (Hret & Hnum' & Hdone & Hleft).
  destruct (for_video_in env (sql_select_planned (db w)) w0) as [r w1].
  cbn [fst snd] in *. subst r.
  destruct Hquiet as (_ & Hsleep & _).
  rewrite time_sleep_run, Hsleep. cbn [fst snd].
  split_and!; [reflexivity | exact Hnum' | exact Hdone |].
  intros v Hv Hst. destruct (Hleft v Hv Hst) as [Hv0 Hnot]. apply Hnot.
  apply list_elem_of_fmap. exists (video_id v, title v). split; [done|].
  apply list_elem_of_fmap. exists (selected v). split; [done|].
  apply sql_select_planned_elem. by exists v.
Qed.

(** With nothing planned a pass only queries and sleeps. *)
Lemma poll_idle env (w : world) :
  quiet env → (∀ v, v ∈ db w → status v ≠ "planned") →
  (poll env w).1 = Ret tt ∧ db (poll env w).2 = db w ∧
  journal (poll env w).2 = journal w.
Proof.
  intros (Hup & Hsleep & _) Hnone. rewrite poll_run.
  rewrite get_planned_videos_up by apply Hup.
  rewrite (sql_select_planned_none _ Hnone). cbn -[time_sleep].
  rewrite time_sleep_run, Hsleep. done.
Qed.

Lemma while_True_idle env (passes : nat) (w : world) :
  quiet env → (∀ v, v ∈ db w → status v ≠ "planned") →
  (while_True env passes w).1 = Ret tt ∧ journal (while_True env passes w).2 = journal w.
Proof.
  intros Hquiet. revert w. induction passes as [|n IH]; intros w Hnone; [done|].
  cbn [while_True]. rewrite bind_run.
  destruct (poll_idle env w Hquiet Hnone) as (Hret & Hdb & Hj).
  destruct (poll env w) as [r w1]. cbn [fst snd] in *. subst r.
  rewrite <- Hj. apply IH. by rewrite Hdb.
Qed.

(** C4: the query for planned jobs returns the planned rows and no others,
    by ascending id; and a daemon that is not interrupted brings the jobs to
    their terminal state one after the other in exactly that order, then
    idles. *)
Theorem planned_jobs_dispatched_in_id_order env (passes : nat) (w : world) :
  quiet env → check_vrew_installed env = true → journal w = [] →
  (get_planned_videos env w).1 = Ret (sql_select_planned (db w)) ∧
  sql_select_planned (db w) ≡ₚ selected <$> filter (λ v, status v = "planned") (db w) ∧
  StronglySorted by_id (sql_select_planned (db w)) ∧
  (daemon_mode env (S passes) w).1 = Looping ∧
  completed (journal (daemon_mode env (S passes) w).2)
  = (sql_select_planned (db w)).*1.*1.
Proof.
  intros Hquiet Hvrew Hfresh.
  split_and!;
    [ by rewrite get_planned_videos_up by apply Hquiet
    | apply sql_select_planned_perm | apply sql_select_planned_sorted | | ].
  all: unfold daemon_mode; rewrite Hvrew; cbn [negb while_True]; rewrite bind_run.
  all: set (w1 := (update_status _ w).2).
  all: assert (counters_numeric w1) as Hnum
      by (exists 0, 0; subst w1; rewrite snapshot_after_update_status;
          split; by apply lookup_updated).
  all: destruct (poll_quiet env w1 Hquiet Hnum) as (Hret & _ & Hdone & Hnone).
  all: destruct (poll env w1) as [r w2]; cbn [fst snd] in *; subst r.
  all: destruct (while_True_idle env passes w2 Hquiet Hnone) as [Hret Hj].
  all: destruct (while_True env passes w2) as [r w3]; cbn [fst snd] in *; subst r.
  - reflexivity.
  - cbn [snd]. rewrite Hj, Hdone. subst w1. cbn [journal update_status].
    change (journal (update_status _ w).2) with (journal w).
    change (db (update_status _ w).2) with (db w).
    by rewrite Hfresh.
Qed.

Lemma planned_jobs_dispatched_in_id_order_witness :
  quiet calm ∧ check_vrew_installed calm = true ∧
  (sql_select_planned [planned 3 "c"; planned 1 "a"; planned 2 "b"]).*1.*1 = [1; 2; 3] ∧
  completed (journal (daemon_mode calm 2
                        (fresh [planned 3 "c"; planned 1 "a"; planned 2 "b"])).2)
  = [1; 2; 3].
Proof.
  assert (quiet calm) as Hquiet by (split_and!; done).
  split_and!; [exact Hquiet | reflexivity | reflexivity |].
  pose proof (planned_jobs_dispatched_in_id_order calm 1
                (fresh [planned 3 "c"; planned 1 "a"; planned 2 "b"])
                Hquiet eq_refl eq_refl) as (_ & _ & _ & _ & Horder).
  exact Horder.
Defined.

(** ** Jobs only move forward, one at a time *)

Lemma sql_update_forward vid st fp (t : list video) :
  (∀ v, v ∈ t → video_id v = vid → forward (status v) st) →
  Forall2 job_step t (sql_update vid st fp t).
Proof.
  unfold sql_update. induction t as [|v t IH]; intros Hfw; [constructor|].
  rewrite fmap_cons. constructor.
  - unfold job_step, set_row. case_decide as Hid; cbn.
    + split; [done|]. apply Hfw; [left|done].
    + split; [done|]. by left.
  - apply IH. intros u Hu. apply Hfw. by right.
Qed.

Lemma set_row_hit vid st fp (v : video) :
  video_id v = vid → status (set_row vid st fp v) = st.
Proof. intros Hid. unfold set_row. by rewrite decide_True. Qed.

Lemma set_row_miss vid st fp (v : video) :
  video_id v ≠ vid → set_row vid st fp v = v.
Proof. intros Hid. unfold set_row. by rewrite decide_False. Qed.

Lemma processing_count_cons (v : video) (t : list video) :
  processing_count (v :: t)
  = ((if decide (status v = "processing") then 1 else 0) + processing_count t)%nat.
Proof.
  unfold processing_count. rewrite filter_cons. by case_decide.
Qed.

(** Moving rows that are not in processing to another state than processing
    leaves the count. *)
Lemma processing_count_update_other vid st fp (t : list video) :
  st ≠ "processing" →
  (∀ v, v ∈ t → video_id v = vid → status v ≠ "processing") →
  processing_count (sql_update vid st fp t) = processing_count t.
Proof.
  intros Hst. unfold sql_update. induction t as [|v t IH]; intros Hnot; [reflexivity|].
  rewrite fmap_cons, !processing_count_cons. rewrite IH by (intros u Hu; apply Hnot; by right).
  f_equal.
  destruct (decide (video_id v = vid)) as [Hid|Hid]; [|by rewrite set_row_miss].
  rewrite decide_False by (by rewrite set_row_hit).
  rewrite decide_False; [done|]. apply Hnot; [left|done].
Qed.

(** Where ids are unique, marking a job as processing adds at most one. *)
Lemma processing_count_update_processing vid fp (t : list video) :
  NoDup (video_id <$> t) →
  (processing_count (sql_update vid "processing" fp t) ≤ S (processing_count t))%nat.
Proof.
  induction t as [|v t IH]; intros Hnodup;
    [unfold processing_count, sql_update; cbn; lia|].
  rewrite fmap_cons in Hnodup. apply NoDup_cons in Hnodup as [Hfresh Hnodup].
  unfold sql_update. rewrite fmap_cons. fold (sql_update vid "processing" fp t).
  rewrite !processing_count_cons.
  destruct (decide (video_id v = vid)) as [Hid|Hid].
  - subst vid. rewrite (sql_update_absent _ _ _ _ Hfresh).
    rewrite decide_True by (by rewrite set_row_hit). case_decide; lia.
  - specialize (IH Hnodup). rewrite set_row_miss by done. case_decide; lia.
Qed.

Lemma unique_row (t : list video) (u v : video) :
  NoDup (video_id <$> t) → u ∈ t → v ∈ t → video_id u = video_id v → u = v.
Proof.
  induction t as [|x t IH]; intros Hnodup Hu Hv Hid; [by apply elem_of_nil in Hu|].
  rewrite fmap_cons in Hnodup. apply NoDup_cons in Hnodup as [Hfresh Hnodup].
  apply elem_of_cons in Hu as [->|Hu]; apply elem_of_cons in Hv as [->|Hv].
  - reflexivity.
  - exfalso. apply Hfresh. rewrite Hid. by apply list_elem_of_fmap_2.
  - exfalso. apply Hfresh. rewrite <- Hid. by apply list_elem_of_fmap_2.
  - by apply IH.
Qed.

Lemma forward_terminal (s s' : string) :
  forward s s' → terminal s = true → s' = s.
Proof.
  intros [Hsame|[[-> _]|[-> _]]] Hterm; [done | discriminate | discriminate].
Qed.

Lemma steady_cons (c : nat) (t' t : list video) (tl : list (list video)) :
  steady c (t :: tl) → Forall2 job_step t t' →
  NoDup (video_id <$> t') → (processing_count t' ≤ S c)%nat →
  steady c (t' :: t :: tl).
Proof.
  intros [Hlaw Hall] Hstep Hnodup Hcount. split.
  - by constructor.
  - by constructor.
Qed.

(** The statements of one automation run, replayed on a table in which the
    job is planned: the history stays steady, and when the run returns the
    count of processing jobs is back where it was and the job has reached a
    terminal state. *)
Lemma replay_launch_shape vid path seg (r : outcome bool) (c : nat) (w : world) :
  launch_shape vid path seg r →
  steady c (timeline w) → processing_count (db w) = c → all_planned vid (db w) →
  steady c (timeline (replay seg w)) ∧
  (∀ b, r = Ret b →
        processing_count (db (replay seg w)) = c ∧
        ∃ st fp, terminal st = true ∧ db (replay seg w) = sql_update vid st fp (db w)).
Proof.
  intros Hshape Hsteady Hc Hplanned.
  assert (NoDup (video_id <$> db w)) as Hnodup.
  { destruct Hsteady as [_ Hall]. apply Forall_cons in Hall as [[? _] _]. done. }
  assert (∀ v, v ∈ db w → video_id v = vid → status v ≠ "processing") as Hidle.
  { intros v Hv Hid. by rewrite (Hplanned v Hv Hid). }
  assert (steady c (timeline (replay [(vid, "failed", "")] w))
          ∧ processing_count (sql_update vid "failed" "" (db w)) = c) as [Hrefused Hcf].
  { split; [|by rewrite processing_count_update_other].
    change (timeline (replay [(vid, "failed", "")] w))
      with (sql_update vid "failed" "" (db w) :: db w :: committed w).
    apply steady_cons; [done | | by rewrite sql_update_ids |].
    - apply sql_update_forward. intros v Hv Hid. rewrite (Hplanned v Hv Hid).
      right; left. by split; [|right].
    - rewrite processing_count_update_other by done. lia. }
  assert (steady c (timeline (replay [(vid, "processing", "")] w))) as Hmarked.
  { change (timeline (replay [(vid, "processing", "")] w))
      with (sql_update vid "processing" "" (db w) :: db w :: committed w).
    apply steady_cons; [done | | by rewrite sql_update_ids |].
    - apply sql_update_forward. intros v Hv Hid. rewrite (Hplanned v Hv Hid).
      right; left. by split; [|left].
    - rewrite <- Hc. by apply processing_count_update_processing. }
  assert (∀ st fp, terminal st = true →
            steady c (timeline (replay [(vid, st, fp); (vid, "processing", "")] w))
            ∧ processing_count
                (sql_update vid st fp (sql_update vid "processing" "" (db w))) = c)
    as Hdone.
  { intros st fp Hterm.
    assert (st ≠ "processing") as Hst by (intros ->; discriminate).
    assert (processing_count
              (sql_update vid st fp (sql_update vid "processing" "" (db w))) = c) as Hcount.
    { rewrite sql_update_twice. by rewrite processing_count_update_other. }
    split; [|exact Hcount].
    change (timeline (replay [(vid, st, fp); (vid, "processing", "")] w))
      with (sql_update vid st fp (sql_update vid "processing" "" (db w))
            :: timeline (replay [(vid, "processing", "")] w)).
    apply (steady_cons c _ _ _ Hmarked); [| by rewrite !sql_update_ids | lia].
    apply sql_update_forward. intros v Hv Hid.
    destruct (sql_update_hit _ _ _ _ _ Hv Hid) as [-> _].
    right; right. split; [done|].
    unfold terminal in Hterm. apply orb_true_iff in Hterm as [Hd|Hf].
    - left. by apply bool_decide_eq_true in Hd.
    - right. by apply bool_decide_eq_true in Hf. }
  destruct Hshape.
  - split; [done|]. discriminate.
  - split; [done|]. discriminate.
  - split; [done|]. intros b _. split; [done|]. by exists "failed", "".
  - destruct (Hdone "failed" "" eq_refl) as [Hs Hcount].
    split; [done|]. intros b _. split; [done|]. exists "failed", "".
    split; [done|]. apply sql_update_twice.
  - destruct (Hdone "downloaded" path eq_refl) as [Hs Hcount].
    split; [done|]. intros b _. split; [done|]. exists "downloaded", path.
    split; [done|]. apply sql_update_twice.
Qed.

Lemma dispatch_store env vid t s (w : world) :
  timeline (dispatch env (vid, t, s) w).2
  = timeline (launch_vrew_automation env vid t s w).2 ∧
  journal (dispatch env (vid, t, s) w).2
  = journal (launch_vrew_automation env vid t s w).2 ∧
  (∀ u, (dispatch env (vid, t, s) w).1 = Ret u →
        ∃ b, (launch_vrew_automation env vid t s w).1 = Ret b).
Proof.
  rewrite dispatch_run.
  destruct (launch_vrew_automation env vid t s w) as [[b|e] w1];
    [|split_and!; [done | done | discriminate]].
  cbv zeta.
  destruct (dict_get (snapshot w1) (if b then "processed_count" else "failed_count")
              (JInt 0));
    try (split_and!; [done | done | discriminate]).
  - destruct (time_sleep_store env 5
                (update_status {[ (if b then "processed_count" else "failed_count")
                                  := JInt (Z.b2z b0 + 1) ]} w1).2) as (Hdb & Hc & Hj & _).
    unfold timeline. rewrite Hdb, Hc, Hj. split_and!; [done | done | by eauto].
  - destruct (time_sleep_store env 5
                (update_status {[ (if b then "processed_count" else "failed_count")
                                  := JInt (n + 1) ]} w1).2) as (Hdb & Hc & Hj & _).
    unfold timeline. rewrite Hdb, Hc, Hj. split_and!; [done | done | by eauto].
Qed.

Lemma timeline_head (w w' : world) : timeline w = timeline w' → db w = db w'.
Proof. unfold timeline. congruence. Qed.

(** One dispatch of a planned job keeps the history steady; when it
    returns, the count of processing jobs is back and the job is terminal. *)
Lemma dispatch_steady env vid t s (c : nat) (w : world) :
  steady c (timeline w) → processing_count (db w) = c → all_planned vid (db w) →
  steady c (timeline (dispatch env (vid, t, s) w).2) ∧
  (∀ u, (dispatch env (vid, t, s) w).1 = Ret u →
        processing_count (db (dispatch env (vid, t, s) w).2) = c ∧
        ∃ st fp, db (dispatch env (vid, t, s) w).2 = sql_update vid st fp (db w)).
Proof.
  intros Hsteady Hc Hplanned.
  destruct (dispatch_store env vid t s w) as (Htl & _ & Hret).
  destruct (launch_commits env vid t s w) as (seg & Hshape & Htl' & _).
  destruct (replay_launch_shape _ _ _ _ c w Hshape Hsteady Hc Hplanned)
    as [Hsteady' Hdone].
  rewrite Htl' in Htl. rewrite (timeline_head _ _ Htl), Htl. split; [done|].
  intros u Hu. destruct (Hret u Hu) as [b Hb].
  destruct (Hdone b Hb) as (Hcount & st & fp & _ & Hdb). eauto.
Qed.

Lemma all_planned_update_other vid vid' st fp (t : list video) :
  vid' ≠ vid → all_planned vid' t → all_planned vid' (sql_update vid st fp t).
Proof.
  intros Hne Hplanned v Hv Hid. apply Hplanned; [|done].
  apply sql_update_miss in Hv; [done | congruence].
Qed.

Lemma for_video_in_steady env (videos : list (Z * string * string)) (c : nat)
    (w : world) :
  steady c (timeline w) → processing_count (db w) = c →
  NoDup videos.*1.*1 → (∀ vid, vid ∈ videos.*1.*1 → all_planned vid (db w)) →
  steady c (timeline (for_video_in env videos w).2) ∧
  (∀ u, (for_video_in env videos w).1 = Ret u →
        processing_count (db (for_video_in env videos w).2) = c).
Proof.
  revert w. induction videos as [|[[vid t] s] rest IH];
    intros w Hsteady Hc Hnodup Hplanned; [done|].
  rewrite !fmap_cons in Hnodup, Hplanned. cbn [fst] in Hnodup, Hplanned.
  apply NoDup_cons in Hnodup as [Hfresh Hnodup].
  destruct (dispatch_steady env vid t s c w Hsteady Hc) as [Hsteady1 Hdone].
  { apply Hplanned. by left. }
  cbn [for_video_in]. rewrite bind_run.
  destruct (dispatch env (vid, t, s) w) as [[u|e] w1]; cbn [fst snd] in *;
    [|split; [done | discriminate]].
  destruct (Hdone u eq_refl) as (Hc1 & st & fp & Hdb).
  apply IH; [done | done | done |].
  intros vid' Hin. rewrite Hdb. apply all_planned_update_other.
  - intros ->. done.
  - apply Hplanned. by right.
Qed.

Lemma sql_select_planned_ids (t : list video) :
  NoDup (video_id <$> t) →
  NoDup (sql_select_planned t).*1.*1 ∧
  (∀ vid, vid ∈ (sql_select_planned t).*1.*1 → all_planned vid t).
Proof.
  intros Hnodup. split.
  - rewrite sql_select_planned_perm.
    assert ((selected <$> filter (λ v, status v = "planned") t).*1.*1
            = video_id <$> filter (λ v, status v = "planned") t) as ->.
    { rewrite <- !list_fmap_compose. by apply list_fmap_ext. }
    eapply sublist_NoDup; [exact Hnodup|]. apply fmap_sublist, sublist_filter.
  - intros vid Hin.
    apply list_elem_of_fmap in Hin as (x & -> & Hin).
    apply list_elem_of_fmap in Hin as (y & -> & Hin).
    apply sql_select_planned_elem in Hin as (v & Hv & Hst & ->).
    intros u Hu Hid. cbn in Hid. by rewrite (unique_row t u v Hnodup Hu Hv Hid).
Qed.

Lemma poll_steady env (c : nat) (w : world) :
  steady c (timeline w) → processing_count (db w) = c →
  steady c (timeline (poll env w).2) ∧
  (∀ u, (poll env w).1 = Ret u → processing_count (db (poll env w).2) = c).
Proof.
  intros Hsteady Hc. rewrite poll_run.
  destruct (store_up env (store_ops w)) eqn:Hup.
  - rewrite (get_planned_videos_up env w Hup).
    set (w0 := set_store_ops _ w).
    assert (NoDup (video_id <$> db w)) as Hnodup.
    { destruct Hsteady as [_ Hall]. apply Forall_cons in Hall as [[? _] _]. done. }
    destruct (sql_select_planned_ids (db w) Hnodup) as [Hids Hplanned].
    destruct (for_video_in_steady env (sql_select_planned (db w)) c w0
                Hsteady Hc Hids Hplanned) as [Hsteady1 Hdone].
    destruct (for_video_in env (sql_select_planned (db w)) w0) as [[u|e] w1];
      cbn [fst snd] in *; [|split; [done | discriminate]].
    destruct (time_sleep_store env 60 w1) as (Hdb & Hcm & _).
    unfold timeline. rewrite Hdb, Hcm. split; [done|]. intros _ _. by apply (Hdone u).
  - rewrite (get_planned_videos_down env w Hup). split; [done | discriminate].
Qed.

Lemma while_True_steady env (passes : nat) (c : nat) (w : world) :
  steady c (timeline w) → processing_count (db w) = c →
  steady c (timeline (while_True env passes w).2) ∧
  (∀ u, (while_True env passes w).1 = Ret u →
        processing_count (db (while_True env passes w).2) = c).
Proof.
  revert w. induction passes as [|n IH]; intros w Hsteady Hc; [done|].
  cbn [while_True]. rewrite bind_run.
  destruct (poll_steady env c w Hsteady Hc) as [Hsteady1 Hdone].
  destruct (poll env w) as [[u|e] w1]; cbn [fst snd] in *;
    [|split; [done | discriminate]].
  apply IH; [done | by apply (Hdone u)].
Qed.




(** ** The file path column *)

Lemma journal_replay (seg : list (Z * string * string)) (w : world) :
  journal (replay seg w) = seg ++ journal w.
Proof.
  induction seg as [|[[vid st] fp] seg IH]; [reflexivity|].
  cbn [replay foldr]. fold (replay seg w).
  change (journal (commit_update ?a ?b ?c ?x)) with ((a, b, c) :: journal x).
  cbn [fst snd]. by rewrite IH.
Qed.

(** C8 (as stated, refuted): a job that was planned again with the path of
    an earlier export still in its row loses that path when it is marked
    processing: the transition writes the file path column. *)
Lemma transition_to_processing_erases_path :
  file_path
  <$> db (fresh [{| video_id := 1; title := "Intro"; script := "Hello world";
                    status := "planned"; file_path := "/out/video_1_Intro.mp4" |}])
  = ["/out/video_1_Intro.mp4"] ∧
  db (update_video_status calm 1 "processing" ""
        (fresh [{| video_id := 1; title := "Intro"; script := "Hello world";
                   status := "planned"; file_path := "/out/video_1_Intro.mp4" |}])).2
  = [{| video_id := 1; title := "Intro"; script := "Hello world";
        status := "processing"; file_path := "" |}].
Proof. split; reflexivity. Qed.

(** C8 (amended): every transition writes the file path column.  The
    statements an automation run commits for a video are, and are only, the
    transition to processing with the empty path, the transition to failed
    with the empty path, and the transition to downloaded with the exported
    path; and a transition to processing or failed leaves the empty path in
    every row of the video, whatever was stored there. *)
Theorem only_download_stores_a_path env vid t s (w : world) :
  (∃ seg,
     journal (launch_vrew_automation env vid t s w).2 = seg ++ journal w ∧
     Forall (λ x, x = (vid, "processing", "") ∨ x = (vid, "failed", "") ∨
                  x = (vid, "downloaded", output_path env vid t)) seg) ∧
  (∀ st v, store_up env (store_ops w) = true →
     v ∈ db (update_video_status env vid st "" w).2 → video_id v = vid →
     status v = st ∧ file_path v = "").
Proof.
  split.
  - destruct (launch_commits env vid t s w) as (seg & Hshape & _ & Hj).
    exists seg. split; [by rewrite Hj, journal_replay|].
    destruct Hshape; repeat (apply Forall_cons; split); try apply Forall_nil; auto.
  - intros st v Hup Hv Hid.
    rewrite (update_video_status_up env vid st "" w Hup) in Hv. simpl in Hv.
    by eapply sql_update_hit.
Qed.

Lemma only_download_stores_a_path_witness :
  store_up calm 0 = true ∧
  db (update_video_status calm 1 "failed" ""
        (fresh [{| video_id := 1; title := "Intro"; script := "Hello world";
                   status := "processing"; file_path := "/out/video_1_Intro.mp4" |}])).2
  = [{| video_id := 1; title := "Intro"; script := "Hello world";
        status := "failed"; file_path := "" |}] ∧
  file_path {| video_id := 1; title := "Intro"; script := "Hello world";
               status := "failed"; file_path := "" |} = "".
Proof.
  split_and!; [reflexivity | reflexivity |].
  destruct (only_download_stores_a_path calm 1 "Intro" "Hello world"
              (fresh [{| video_id := 1; title := "Intro"; script := "Hello world";
                         status := "processing";
                         file_path := "/out/video_1_Intro.mp4" |}]))
    as [_ Hclear].
  apply (Hclear "failed"
           {| video_id := 1; title := "Intro"; script := "Hello world";
              status := "failed"; file_path := "" |});
    [reflexivity | by left | reflexivity].
Defined.

(** * Further properties of the program *)

(** ** The status file: read, merge, write *)

(** X2: Two updates of the status file made at the same clock reading amount to
    one update with both dictionaries merged, the later one winning. *)
Theorem update_status_twice (u1 u2 : gmap string jval) (w : world) :
  update_status u2 (update_status u1 w).2 = update_status (u2 ∪ u1) w.
Proof.
  rewrite (update_status_run u1 w). cbn [snd]. rewrite !update_status_run.
  rewrite snapshot_set_status_json.
  change (now (set_status_json _ w)) with (now w).
  unfold set_status_json. cbn. do 3 f_equal.
  apply map_eq. intros k.
  destruct (decide (k = "last_update")) as [->|Hk].
  - by rewrite !lookup_insert_eq.
  - rewrite !lookup_insert_ne by done. rewrite !lookup_union.
    rewrite lookup_insert_ne by done. rewrite lookup_union.
    by destruct (u2 !! k), (u1 !! k), (snapshot w !! k).
Qed.

(** ** The job store: errors and composition *)

(** X3: When the database cannot be reached, the query and the update both
    raise the database error instead of returning, and leave the table, its
    history, the journal and the status file as they were. *)
Theorem store_down_raises_and_keeps env vid st fp (w : world) :
  store_up env (store_ops w) = false →
  (get_planned_videos env w).1 = Raise (Exception "sqlite3.OperationalError") ∧
  (update_video_status env vid st fp w).1 = Raise (Exception "sqlite3.OperationalError") ∧
  timeline (get_planned_videos env w).2 = timeline w ∧
  timeline (update_video_status env vid st fp w).2 = timeline w ∧
  journal (update_video_status env vid st fp w).2 = journal w ∧
  status_json (update_video_status env vid st fp w).2 = status_json w.
Proof.
  intros Hdown.
  rewrite (get_planned_videos_down env w Hdown).
  rewrite (update_video_status_down env vid st fp w Hdown).
  split_and!; reflexivity.
Qed.

Lemma store_down_raises_and_keeps_witness :
  store_up outage (store_ops (fresh [planned 1 "Intro"])) = false ∧
  timeline (update_video_status outage 1 "processing" "" (fresh [planned 1 "Intro"])).2
  = timeline (fresh [planned 1 "Intro"]).
Proof.
  split; [reflexivity|].
  apply (store_down_raises_and_keeps outage 1 "processing" ""
           (fresh [planned 1 "Intro"])).
  reflexivity.
Defined.

Lemma sql_update_swap vid1 st1 fp1 vid2 st2 fp2 (t : list video) :
  vid1 ≠ vid2 →
  sql_update vid1 st1 fp1 (sql_update vid2 st2 fp2 t)
  = sql_update vid2 st2 fp2 (sql_update vid1 st1 fp1 t).
Proof.
  intros Hne. unfold sql_update. rewrite <- !list_fmap_compose.
  apply list_fmap_ext. intros _ v _. cbn. unfold set_row.
  repeat (case_decide; cbn in * ); congruence.
Qed.

Lemma sql_update_selected vid st fp (t : list video) :
  selected <$> sql_update vid st fp t = selected <$> t.
Proof.
  unfold sql_update. rewrite <- list_fmap_compose. apply list_fmap_ext.
  intros _ v _. cbn. unfold set_row. by case_decide.
Qed.

(** X4: Two updates, with the database reachable for both: on different ids
    they give the same table in either order; on the same id the table is
    the one the later update alone would give. *)
Theorem updates_compose env vid1 st1 fp1 vid2 st2 fp2 (w : world) :
  store_up env (store_ops w) = true → store_up env (S (store_ops w)) = true →
  (vid1 ≠ vid2 →
   db (update_video_status env vid1 st1 fp1
         (update_video_status env vid2 st2 fp2 w).2).2
   = db (update_video_status env vid2 st2 fp2
           (update_video_status env vid1 st1 fp1 w).2).2) ∧
  db (update_video_status env vid1 st2 fp2
        (update_video_status env vid1 st1 fp1 w).2).2
  = db (update_video_status env vid1 st2 fp2 w).2.
Proof.
  intros Hup0 Hup1.
  rewrite !(update_video_status_up env _ _ _ w Hup0).
  rewrite !(update_video_status_up env) by exact Hup1.
  split.
  - intros Hne. cbn. by apply sql_update_swap.
  - cbn. apply sql_update_twice.
Qed.

Lemma updates_compose_witness :
  store_up calm 0 = true ∧ store_up calm 1 = true ∧
  db (update_video_status calm 1 "failed" ""
        (update_video_status calm 1 "processing" ""
           (fresh [planned 1 "Intro"; planned 2 "Outro"])).2).2
  = db (update_video_status calm 1 "failed" ""
          (fresh [planned 1 "Intro"; planned 2 "Outro"])).2.
Proof.
  split_and!; [reflexivity | reflexivity |].
  apply (updates_compose calm 1 "processing" "" 2 "failed" ""
           (fresh [planned 1 "Intro"; planned 2 "Outro"])); reflexivity.
Defined.

(** X5: An update never adds, removes or reorders rows, and never changes the
    id, title or script of a row, whether the database is reached or not. *)
Theorem update_keeps_rows env vid st fp (w : world) :
  selected <$> db (update_video_status env vid st fp w).2 = selected <$> db w ∧
  List.length (db (update_video_status env vid st fp w).2) = List.length (db w).
Proof.
  assert (selected <$> db (update_video_status env vid st fp w).2 = selected <$> db w)
    as Hsel.
  { destruct (store_up env (store_ops w)) eqn:Hup.
    - rewrite (update_video_status_up env vid st fp w Hup). cbn.
      apply sql_update_selected.
    - by rewrite (update_video_status_down env vid st fp w Hup). }
  split; [exact Hsel|].
  by rewrite <- (length_fmap selected), Hsel, length_fmap.
Qed.

(** ** One automation run, in any environment *)

Lemma launch_shape_table vid path seg (r : outcome bool) (w : world) :
  launch_shape vid path seg r →
  (db (replay seg w) = db w ∧ ∃ e, r = Raise e) ∨
  (db (replay seg w) = sql_update vid "processing" "" (db w) ∧ ∃ e, r = Raise e) ∨
  (db (replay seg w) = sql_update vid "failed" "" (db w) ∧ r = Ret false) ∨
  (db (replay seg w) = sql_update vid "downloaded" path (db w) ∧ r = Ret true).
Proof.
  intros [e|e| | |].
  - left. by eauto.
  - right; left. by eauto.
  - right; right; left. done.
  - right; right; left. split; [apply sql_update_twice | done].
  - right; right; right. split; [apply sql_update_twice | done].
Qed.

(** X6: Whatever the environment does, an automation run touches no row but
    those of its own video and keeps the ids of the table; and when it
    returns, its result tells the state it left: true with every row of the
    video downloaded at the exported path, false with every row of the video
    failed and without a path. *)
Theorem launch_result_tells_state env vid t s (w : world) :
  (∀ v, video_id v ≠ vid →
        v ∈ db (launch_vrew_automation env vid t s w).2 ↔ v ∈ db w) ∧
  video_id <$> db (launch_vrew_automation env vid t s w).2 = video_id <$> db w ∧
  (∀ b v, (launch_vrew_automation env vid t s w).1 = Ret b →
          v ∈ db (launch_vrew_automation env vid t s w).2 → video_id v = vid →
          status v = (if b then "downloaded" else "failed") ∧
          file_path v = (if b then output_path env vid t else "")).
Proof.
  destruct (launch_commits env vid t s w) as (seg & Hshape & Htl & _).
  apply timeline_head in Htl. rewrite Htl.
  destruct (launch_shape_table _ _ _ _ w Hshape)
    as [[-> [e ->]]|[[-> [e ->]]|[[-> ->]|[-> ->]]]].
  - split_and!; [done | done | discriminate].
  - split_and!; [intros v Hv; by apply sql_update_miss | apply sql_update_ids
                 | discriminate].
  - split_and!; [intros v Hv; by apply sql_update_miss | apply sql_update_ids |].
    intros b v [= <-] Hv Hid. by eapply sql_update_hit.
  - split_and!; [intros v Hv; by apply sql_update_miss | apply sql_update_ids |].
    intros b v [= <-] Hv Hid. by eapply sql_update_hit.
Qed.

(** What can escape an automation run, and where it came from. *)
Lemma launch_raises env vid t s (w : world) (e : exn) :
  (launch_vrew_automation env vid t s w).1 = Raise e →
  (e = KeyboardInterrupt ∧
   (import_fault env vid = Some KeyboardInterrupt ∨
    gui_fault env vid = Some KeyboardInterrupt)) ∨
  (e = Exception "sqlite3.OperationalError" ∧ ∃ n, store_up env n = false).
Proof.
  run_M.
  destruct (import_fault env vid) as [[|what]|] eqn:Himp; cbn.
  - intros [= <-]. left. by eauto.
  - destruct (store_up env (store_ops w)) eqn:Hup0; cbn; [discriminate|].
    intros [= <-]. right. by eauto.
  - destruct (store_up env (store_ops w)) eqn:Hup0; cbn.
    + destruct (gui_fault env vid) as [[|what]|] eqn:Hgui; cbn.
      * intros [= <-]. left. by eauto.
      * destruct (store_up env (S (store_ops w))) eqn:Hup1; cbn; [discriminate|].
        intros [= <-]. right. by eauto.
      * destruct (path_exists env (output_path env vid t)); cbn;
          (destruct (store_up env (S (store_ops w))) eqn:Hup1; cbn; [discriminate|]);
          (destruct (store_up env (S (S (store_ops w)))) eqn:Hup2; cbn; [discriminate|]);
          intros [= <-]; right; by eauto.
    + destruct (store_up env (S (store_ops w))) eqn:Hup1; cbn; [discriminate|].
      intros [= <-]. right. by eauto.
Qed.

(** X7: for a video whose id SQLite can store, the automation run catches
    every exception of class [Exception] raised in its body.  What escapes
    it is Ctrl-C, or the database error, and the database error only when the
    database could not be reached. *)
Theorem launch_escapes env vid t s (w : world) (e : exn) :
  sqlite_integer vid →
  (launch_vrew_automation env vid t s w).1 = Raise e →
  e = KeyboardInterrupt ∨
  (e = Exception "sqlite3.OperationalError" ∧ ∃ n, store_up env n = false).
Proof.
  intros _ Hraise.
  destruct (launch_raises env vid t s w e Hraise) as [[-> _]|Hdb]; [by left | by right].
Qed.

Lemma launch_escapes_witness :
  sqlite_integer 1 ∧
  (launch_vrew_automation outage 1 "Intro" "Hello world"
     (set_store_ops 0 (fresh [planned 1 "Intro"]))).1 = Ret false ∧
  (launch_vrew_automation interrupted 1 "Intro" "Hello world"
     (fresh [planned 1 "Intro"])).1 = Raise KeyboardInterrupt.
Proof.
  assert (sqlite_integer 1) as H1 by (unfold sqlite_integer; lia).
  split_and!; [exact H1 | reflexivity |].
  destruct (launch_escapes interrupted 1 "Intro" "Hello world"
              (fresh [planned 1 "Intro"]) KeyboardInterrupt H1 eq_refl)
    as [_|[Hdb _]].
  - reflexivity.
  - discriminate Hdb.
Defined.

(** X8: Ctrl-C while Vrew is driven: the run raises, and the job it had marked
    stays in processing, without a path; the status file goes on naming it. *)
Theorem interrupt_leaves_job_processing env vid t s (w : world) :
  import_fault env vid = None → store_up env (store_ops w) = true →
  gui_fault env vid = Some KeyboardInterrupt →
  (launch_vrew_automation env vid t s w).1 = Raise KeyboardInterrupt ∧
  (dispatch env (vid, t, s) w).1 = Raise KeyboardInterrupt ∧
  db (dispatch env (vid, t, s) w).2 = sql_update vid "processing" "" (db w) ∧
  (∀ v, v ∈ db (dispatch env (vid, t, s) w).2 → video_id v = vid →
        status v = "processing" ∧ file_path v = "") ∧
  snapshot (dispatch env (vid, t, s) w).2 !! "current_video" = Some (JVideo vid t).
Proof.
  intros Himp Hup0 Hgui.
  assert (launch_vrew_automation env vid t s w
          = (Raise KeyboardInterrupt,
             set_now (now w + gui_seconds env vid)
               (set_status_json
                  (Some (<["last_update" := JTime (now w)]>
                           ({[ "current_video" := JVideo vid t ]} ∪ snapshot w)))
                  (commit_update vid "processing" ""
                     (set_store_ops (S (store_ops w)) w))))) as Hrun.
  { run_M. rewrite Himp. cbn. rewrite Hup0. cbn. by rewrite Hgui. }
  rewrite dispatch_run, Hrun. cbn [fst snd].
  split_and!; [reflexivity | reflexivity | reflexivity | |].
  - intros v Hv Hid. simpl in Hv. by eapply sql_update_hit.
  - change (snapshot (set_now ?a (set_status_json (Some ?m) ?x))) with m.
    by apply lookup_updated.
Qed.

Lemma interrupt_leaves_job_processing_witness :
  import_fault interrupted 1 = None ∧ store_up interrupted 0 = true ∧
  gui_fault interrupted 1 = Some KeyboardInterrupt ∧
  db (dispatch interrupted (1, "Intro", "Hello world") (fresh [planned 1 "Intro"])).2
  = sql_update 1 "processing" "" [planned 1 "Intro"].
Proof.
  split_and!; [reflexivity | reflexivity | reflexivity |].
  apply (interrupt_leaves_job_processing interrupted 1 "Intro" "Hello world"
           (fresh [planned 1 "Intro"])); reflexivity.
Defined.

(** ** The daemon, in any environment *)

Lemma launch_keeps_key env vid t s (w : world) (k : string) :
  k ≠ "current_video" → k ≠ "last_update" →
  snapshot (launch_vrew_automation env vid t s w).2 !! k = snapshot w !! k.
Proof.
  intros Hcv Hlu.
  assert (∀ τ (m : gmap string jval),
            (<["last_update" := JTime τ]> ({[ "current_video" := JVideo vid t ]} ∪ m)) !! k
            = m !! k) as Hskip.
  { intros τ m. apply lookup_not_updated; [done|]. by apply lookup_singleton_ne. }
  run_M.
  destruct (import_fault env vid) as [[|what]|]; cbn; [reflexivity | |].
  - by destruct (store_up env (store_ops w)).
  - destruct (store_up env (store_ops w)); cbn.
    + destruct (gui_fault env vid) as [[|what]|]; cbn.
      * apply Hskip.
      * destruct (store_up env (S (store_ops w))); apply Hskip.
      * destruct (path_exists env (output_path env vid t)); cbn;
          destruct (store_up env (S (store_ops w))); cbn;
          try (destruct (store_up env (S (S (store_ops w)))); cbn);
          apply Hskip.
    + by destruct (store_up env (S (store_ops w))).
Qed.

Lemma tally_app st (j1 j2 : list (Z * string * string)) :
  tally st (j1 ++ j2) = tally st j1 + tally st j2.
Proof. unfold tally. rewrite filter_app, length_app. lia. Qed.

(** The terminal statement of a run that returns matches its result, and a
    run that raises has committed no terminal statement. *)
Lemma launch_tally env vid t s (w : world) :
  tally "downloaded" (journal (launch_vrew_automation env vid t s w).2)
  = tally "downloaded" (journal w)
    + (if (launch_vrew_automation env vid t s w).1 is Ret true then 1 else 0) ∧
  tally "failed" (journal (launch_vrew_automation env vid t s w).2)
  = tally "failed" (journal w)
    + (if (launch_vrew_automation env vid t s w).1 is Ret false then 1 else 0).
Proof.
  destruct (launch_commits env vid t s w) as (seg & Hshape & _ & Hj).
  rewrite Hj, journal_replay, !tally_app.
  destruct (launch_vrew_automation env vid t s w) as [r w1]. cbn [fst] in *.
  destruct Hshape; split; unfold tally at 1; simpl; lia.
Qed.

(** One dispatch keeps the counters in step with the journal, and lets
    nothing escape but Ctrl-C and the database error. *)
Lemma dispatch_counted env vid t s (w : world) :
  counted w →
  counted (dispatch env (vid, t, s) w).2 ∧
  (∀ what, (dispatch env (vid, t, s) w).1 = Raise (Exception what) →
           what = "sqlite3.OperationalError").
Proof.
  intros [Hp Hf].
  destruct (launch_tally env vid t s w) as [Hd Hfl].
  pose proof (launch_keeps_key env vid t s w "processed_count"
                ltac:(done) ltac:(done)) as Hkp.
  pose proof (launch_keeps_key env vid t s w "failed_count"
                ltac:(done) ltac:(done)) as Hkf.
  rewrite Hp in Hkp. rewrite Hf in Hkf.
  pose proof (launch_raises env vid t s w) as Hesc.
  rewrite dispatch_run.
  destruct (launch_vrew_automation env vid t s w) as [[b|e] w1]; cbn [fst snd] in *.
  - clear Hesc. cbv zeta. unfold dict_get.
    destruct b.
    + rewrite Hkp. cbn [from_option id].
      destruct (time_sleep_store env 5
                  (update_status {[ "processed_count" :=
                                    JInt (tally "downloaded" (journal w) + 1) ]} w1).2)
        as (_ & _ & Hj & Hst).
      split.
      * unfold counted, snapshot. rewrite Hst, Hj.
        fold (snapshot (update_status {[ "processed_count" :=
                 JInt (tally "downloaded" (journal w) + 1) ]} w1).2).
        rewrite snapshot_after_update_status.
        change (journal (update_status _ w1).2) with (journal w1).
        rewrite Hd, Hfl, Z.add_0_r. split.
        -- by apply lookup_updated.
        -- by rewrite lookup_not_updated, Hkf.
      * intros what. rewrite time_sleep_run.
        destruct (ctrl_c env _); discriminate.
    + rewrite Hkf. cbn [from_option id].
      destruct (time_sleep_store env 5
                  (update_status {[ "failed_count" :=
                                    JInt (tally "failed" (journal w) + 1) ]} w1).2)
        as (_ & _ & Hj & Hst).
      split.
      * unfold counted, snapshot. rewrite Hst, Hj.
        fold (snapshot (update_status {[ "failed_count" :=
                 JInt (tally "failed" (journal w) + 1) ]} w1).2).
        rewrite snapshot_after_update_status.
        change (journal (update_status _ w1).2) with (journal w1).
        rewrite Hd, Hfl, Z.add_0_r. split.
        -- by rewrite lookup_not_updated, Hkp.
        -- by apply lookup_updated.
      * intros what. rewrite time_sleep_run.
        destruct (ctrl_c env _); discriminate.
  - split.
    + unfold counted. by rewrite Hkp, Hkf, Hd, Hfl, !Z.add_0_r.
    + intros what [= ->]. destruct (Hesc _ eq_refl) as [[? _]|[[= ->] _]]; done.
Qed.

Lemma for_video_in_counted env (videos : list (Z * string * string)) (w : world) :
  counted w →
  counted (for_video_in env videos w).2 ∧
  (∀ what, (for_video_in env videos w).1 = Raise (Exception what) →
           what = "sqlite3.OperationalError").
Proof.
  revert w. induction videos as [|[[vid t] s] rest IH]; intros w Hc;
    [split; [done | discriminate]|].
  destruct (dispatch_counted env vid t s w Hc) as [Hc1 Hesc].
  cbn [for_video_in]. rewrite bind_run.
  destruct (dispatch env (vid, t, s) w) as [[u|e] w1]; cbn [fst snd] in *.
  - by apply IH.
  - split; [done|]. intros what [= ->]. by apply Hesc.
Qed.

Lemma poll_counted env (w : world) :
  counted w →
  counted (poll env w).2 ∧
  (∀ what, (poll env w).1 = Raise (Exception what) →
           what = "sqlite3.OperationalError").
Proof.
  intros Hc. rewrite poll_run.
  destruct (store_up env (store_ops w)) eqn:Hup.
  - rewrite (get_planned_videos_up env w Hup).
    destruct (for_video_in_counted env (sql_select_planned (db w))
                (set_store_ops (S (store_ops w)) w) Hc) as [Hc1 Hesc].
    destruct (for_video_in env _ _) as [[u|e] w1]; cbn [fst snd] in *.
    + destruct (time_sleep_store env 60 w1) as (_ & _ & Hj & Hst).
      split.
      * unfold counted, snapshot. rewrite Hst, Hj. exact Hc1.
      * intros what. rewrite time_sleep_run. destruct (ctrl_c env _); discriminate.
    + split; [done|]. intros what [= ->]. by apply Hesc.
  - rewrite (get_planned_videos_down env w Hup).
    split; [done|]. by intros what [= <-].
Qed.

Lemma while_True_counted env (passes : nat) (w : world) :
  counted w →
  counted (while_True env passes w).2 ∧
  (∀ what, (while_True env passes w).1 = Raise (Exception what) →
           what = "sqlite3.OperationalError").
Proof.
  revert w. induction passes as [|n IH]; intros w Hc; [split; [done | discriminate]|].
  destruct (poll_counted env w Hc) as [Hc1 Hesc].
  cbn [while_True]. rewrite bind_run.
  destruct (poll env w) as [[u|e] w1]; cbn [fst snd] in *.
  - by apply IH.
  - split; [done|]. intros what [= ->]. by apply Hesc.
Qed.

Lemma counted_at_start (w : world) :
  journal w = [] →
  counted (update_status {[ "running" := JBool true; "processed_count" := JInt 0;
                            "failed_count" := JInt 0 ]} w).2.
Proof.
  intros Hfresh. unfold counted. rewrite snapshot_after_update_status.
  change (journal (update_status _ w).2) with (journal w). rewrite Hfresh.
  split; by apply lookup_updated.
Qed.

(** X9: when nobody presses Ctrl-C, whatever the database and the
    automation do, and whether the status file was absent, unreadable or held
    an object before: when a run of the daemon stops, and whenever it is
    between two passes, [processed_count] is the number of jobs the run has
    brought to downloaded and [failed_count] the number it has brought to
    failed. *)
Theorem counters_follow_the_journal env (passes : nat) (w : world) :
  uninterrupted env →
  check_vrew_installed env = true → journal w = [] →
  snapshot (daemon_mode env passes w).2 !! "processed_count"
  = Some (JInt (tally "downloaded" (journal (daemon_mode env passes w).2))) ∧
  snapshot (daemon_mode env passes w).2 !! "failed_count"
  = Some (JInt (tally "failed" (journal (daemon_mode env passes w).2))).
Proof.
  intros _ Hvrew Hfresh. unfold daemon_mode. rewrite Hvrew. cbn [negb].
  destruct (while_True_counted env passes _ (counted_at_start w Hfresh))
    as [[Hp Hf] _].
  destruct (while_True env passes _) as [[u|[|what]] w2]; cbn [fst snd] in *;
    [done | |];
    unfold finally_stopped; rewrite snapshot_after_update_status;
    change (journal (update_status _ w2).2) with (journal w2);
    by rewrite !lookup_not_updated.
Qed.

Lemma counters_follow_the_journal_witness :
  uninterrupted clumsy ∧ check_vrew_installed clumsy = true ∧
  snapshot (daemon_mode clumsy 2 (fresh [planned 1 "Intro"; planned 2 "Outro"])).2
    !! "failed_count" = Some (JInt 2).
Proof.
  assert (uninterrupted clumsy) as Hquiet by (split_and!; done).
  split_and!; [exact Hquiet | reflexivity |].
  apply (counters_follow_the_journal clumsy 2
           (fresh [planned 1 "Intro"; planned 2 "Outro"]) Hquiet); reflexivity.
Defined.

(** The loop writes no key of the status file but the current video, the
    counters and the stamp. *)
Lemma while_True_keeps_key env (passes : nat) (w : world) (k : string) :
  k ≠ "current_video" → k ≠ "last_update" →
  k ≠ "processed_count" → k ≠ "failed_count" →
  snapshot (while_True env passes w).2 !! k = snapshot w !! k.
Proof.
  intros Hcv Hlu Hp Hf.
  assert (∀ videos w0, snapshot (for_video_in env videos w0).2 !! k = snapshot w0 !! k)
    as Hfor.
  { induction videos as [|[[vid t] s] rest IH]; intros w0; [reflexivity|].
    cbn [for_video_in]. rewrite bind_run.
    pose proof (dispatch_keeps_key env vid t s w0 k Hp Hf Hlu) as Hd.
    rewrite (launch_keeps_key env vid t s w0 k Hcv Hlu) in Hd.
    destruct (dispatch env (vid, t, s) w0) as [[u|e] w1]; cbn [snd] in *;
      [by rewrite IH | done]. }
  assert (∀ w0, snapshot (poll env w0).2 !! k = snapshot w0 !! k) as Hpoll.
  { intros w0. rewrite poll_run.
    destruct (store_up env (store_ops w0)) eqn:Hup.
    - rewrite (get_planned_videos_up env w0 Hup).
      specialize (Hfor (sql_select_planned (db w0)) (set_store_ops (S (store_ops w0)) w0)).
      destruct (for_video_in env _ _) as [[u|e] w1]; cbn [snd] in *; [|done].
      destruct (time_sleep_store env 60 w1) as (_ & _ & _ & Hst).
      unfold snapshot at 1. by rewrite Hst.
    - by rewrite (get_planned_videos_down env w0 Hup). }
  revert w. induction passes as [|n IH]; intros w; [reflexivity|].
  cbn [while_True]. rewrite bind_run. specialize (Hpoll w).
  destruct (poll env w) as [[u|e] w1]; cbn [snd] in *; [by rewrite IH | done].
Qed.

(** X11: as long as [daemon_mode] is in its loop the status file says that
    the daemon is running, whatever the database and the automation do: the
    loop never writes the running flag. *)
Theorem running_while_looping env (passes : nat) (w : world) :
  (daemon_mode env passes w).1 = Looping →
  snapshot (daemon_mode env passes w).2 !! "running" = Some (JBool true).
Proof.
  unfold daemon_mode.
  destruct (negb (check_vrew_installed env)); [discriminate|].
  pose proof (while_True_keeps_key env passes
                (update_status {[ "running" := JBool true; "processed_count" := JInt 0;
                                  "failed_count" := JInt 0 ]} w).2 "running"
                ltac:(done) ltac:(done) ltac:(done) ltac:(done)) as Hkeep.
  rewrite snapshot_after_update_status in Hkeep.
  rewrite (lookup_updated _ _ _ _ (JBool true)) in Hkeep by done.
  destruct (while_True env passes _) as [[u|[|what]] w2]; cbn [fst snd] in *;
    [done | discriminate | discriminate].
Qed.

Lemma running_while_looping_witness :
  (daemon_mode clumsy 2 (fresh [planned 1 "Intro"])).1 = Looping ∧
  snapshot (daemon_mode clumsy 2 (fresh [planned 1 "Intro"])).2 !! "running"
  = Some (JBool true).
Proof.
  split; [reflexivity|].
  apply (running_while_looping clumsy 2 (fresh [planned 1 "Intro"])).
  reflexivity.
Defined.

(** ** An uninterrupted run *)

Lemma while_True_idle_world env (passes : nat) (w : world) :
  quiet env → (∀ v, v ∈ db w → status v ≠ "planned") →
  (while_True env passes w).1 = Ret tt ∧
  db (while_True env passes w).2 = db w ∧
  committed (while_True env passes w).2 = committed w ∧
  journal (while_True env passes w).2 = journal w ∧
  status_json (while_True env passes w).2 = status_json w ∧
  now (while_True env passes w).2 = now w + 60 * Z.of_nat passes ∧
  store_ops (while_True env passes w).2 = (store_ops w + passes)%nat.
Proof.
  intros Hquiet. revert w. induction passes as [|n IH]; intros w Hnone.
  - cbn. split_and!; try reflexivity; lia.
  - cbn [while_True]. rewrite bind_run, poll_run.
    destruct Hquiet as (Hup & Hsleep & Hrest).
    rewrite get_planned_videos_up by apply Hup.
    rewrite (sql_select_planned_none _ Hnone). cbn -[time_sleep while_True].
    rewrite time_sleep_run, Hsleep.
    set (w1 := set_now _ _).
    destruct (IH w1) as (Hr & Hdb & Hc & Hj & Hst & Hnow & Hops); [exact Hnone|].
    rewrite Hr, Hdb, Hc, Hj, Hst, Hnow, Hops. subst w1. cbn.
    split_and!; try reflexivity; lia.
Qed.

(** X12: A daemon that finds nothing planned and is not interrupted only polls:
    after any number of passes it is still in its loop, it has queried the
    database once per pass and slept sixty seconds per pass, and the table,
    the journal and both counters are as they were at the start, the counters
    at zero. *)
Theorem idle_daemon_only_polls env (passes : nat) (w : world) :
  quiet env → check_vrew_installed env = true →
  (∀ v, v ∈ db w → status v ≠ "planned") →
  (daemon_mode env passes w).1 = Looping ∧
  timeline (daemon_mode env passes w).2 = timeline w ∧
  journal (daemon_mode env passes w).2 = journal w ∧
  now (daemon_mode env passes w).2 = now w + 60 * Z.of_nat passes ∧
  store_ops (daemon_mode env passes w).2 = (store_ops w + passes)%nat ∧
  snapshot (daemon_mode env passes w).2 !! "processed_count" = Some (JInt 0) ∧
  snapshot (daemon_mode env passes w).2 !! "failed_count" = Some (JInt 0).
Proof.
  intros Hquiet Hvrew Hnone. unfold daemon_mode. rewrite Hvrew. cbn [negb].
  set (w1 := (update_status _ w).2).
  destruct (while_True_idle_world env passes w1 Hquiet Hnone)
    as (Hr & Hdb & Hc & Hj & Hst & Hnow & Hops).
  destruct (while_True env passes w1) as [r w2]. cbn [fst snd] in *. subst r.
  cbn [fst snd]. unfold timeline, snapshot. rewrite Hdb, Hc, Hj, Hst, Hnow, Hops.
  fold (snapshot w1). subst w1. rewrite snapshot_after_update_status.
  split_and!; try reflexivity; by apply lookup_updated.
Qed.

Lemma idle_daemon_only_polls_witness :
  quiet calm ∧ check_vrew_installed calm = true ∧
  now (daemon_mode calm 3 (fresh [])).2 = 180.
Proof.
  assert (quiet calm) as Hquiet by (split_and!; done).
  split_and!; [exact Hquiet | reflexivity |].
  apply (idle_daemon_only_polls calm 3 (fresh []) Hquiet eq_refl).
  intros v Hv. by apply elem_of_nil in Hv.
Defined.

Lemma tally_cons st (x : Z * string * string) (j : list (Z * string * string)) :
  tally st (x :: j) = (if decide (x.1.2 = st) then 1 else 0) + tally st j.
Proof.
  unfold tally. rewrite filter_cons. case_decide; cbn [List.length]; lia.
Qed.

Lemma completed_length (j : list (Z * string * string)) :
  Z.of_nat (List.length (completed j)) = tally "downloaded" j + tally "failed" j.
Proof.
  induction j as [|x j IH]; [reflexivity|].
  rewrite completed_cons, length_app, !tally_cons, Nat2Z.inj_add, IH.
  unfold terminal.
  destruct (decide (x.1.2 = "downloaded")) as [Hd|Hd];
    destruct (decide (x.1.2 = "failed")) as [Hf|Hf].
  - congruence.
  - rewrite (bool_decide_eq_true_2 _ Hd). cbn. lia.
  - rewrite (bool_decide_eq_false_2 _ Hd), (bool_decide_eq_true_2 _ Hf). cbn. lia.
  - rewrite (bool_decide_eq_false_2 _ Hd), (bool_decide_eq_false_2 _ Hf). cbn. lia.
Qed.

Lemma settled_ids_step vid st fp (ids : list Z) (t t' : list video) :
  terminal st = true →
  settled_ids ids (sql_update vid st fp t) t' → settled_ids (vid :: ids) t t'.
Proof.
  intros Hterm. unfold settled_ids, sql_update. rewrite Forall2_fmap_l.
  intros Hall. eapply Forall2_impl; [exact Hall|]. intros v v'. cbn.
  destruct (decide (video_id v = vid)) as [Hid|Hid].
  - assert (video_id (set_row vid st fp v) = video_id v
            ∧ selected (set_row vid st fp v) = selected v
            ∧ status (set_row vid st fp v) = st) as (Hi & Hs & Hst).
    { unfold set_row. by rewrite decide_True. }
    rewrite Hi, Hs. rewrite (decide_True (P := video_id v ∈ vid :: ids)) by (subst; left).
    destruct (decide (video_id v ∈ ids)); [done|]. intros ->. by rewrite Hst.
  - rewrite set_row_miss by done.
    destruct (decide (video_id v ∈ ids)) as [Hin|Hin].
    + rewrite decide_True by (by right). done.
    + rewrite decide_False; [done|]. by intros [?|?]%elem_of_cons.
Qed.

Lemma for_video_in_settled env (videos : list (Z * string * string)) (w : world) :
  quiet env → counters_numeric w →
  settled_ids videos.*1.*1 (db w) (db (for_video_in env videos w).2).
Proof.
  intros Hquiet. revert w. induction videos as [|[[vid t] s] rest IH]; intros w Hnum.
  - cbn. unfold settled_ids. apply Forall2_same_length_lookup_2; [done|].
    intros i v v' Hv Hv'. rewrite decide_False by apply not_elem_of_nil. congruence.
  - destruct (dispatch_quiet env vid t s w Hquiet Hnum)
      as (Hret & Hnum1 & _ & st & fp & Hterm & Hdb).
    cbn [for_video_in]. rewrite bind_run.
    destruct (dispatch env (vid, t, s) w) as [r w1]. cbn [fst snd] in *. subst r.
    rewrite !fmap_cons. cbn [fst].
    apply (settled_ids_step vid st fp _ _ _ Hterm). rewrite <- Hdb. by apply IH.
Qed.

Lemma Forall2_impl_elem {A B} (P Q : A → B → Prop) (l : list A) (k : list B) :
  Forall2 P l k → (∀ x y, x ∈ l → P x y → Q x y) → Forall2 Q l k.
Proof.
  induction 1 as [|x y l k Hxy Hlk IH]; intros Himp; constructor.
  - apply Himp; [left | done].
  - apply IH. intros a b Ha. apply Himp. by right.
Qed.

(** X13: A run that nothing interrupts settles the queue.  With unique ids, when
    the daemon is back in its polling loop every row that was planned has
    reached downloaded or failed, keeping its id, title and script; every
    other row is exactly as it was; no row is planned any more; and the two
    counters add up to the number of rows that were planned. *)
Theorem quiet_run_settles_the_queue env (passes : nat) (w : world) :
  quiet env → check_vrew_installed env = true →
  NoDup (video_id <$> db w) → journal w = [] →
  (daemon_mode env (S passes) w).1 = Looping ∧
  Forall2 settled_row (db w) (db (daemon_mode env (S passes) w).2) ∧
  (∀ v, v ∈ db (daemon_mode env (S passes) w).2 → status v ≠ "planned") ∧
  ∃ p f,
    snapshot (daemon_mode env (S passes) w).2 !! "processed_count" = Some (JInt p) ∧
    snapshot (daemon_mode env (S passes) w).2 !! "failed_count" = Some (JInt f) ∧
    p + f = Z.of_nat (List.length (filter (λ v, status v = "planned") (db w))).
Proof.
  intros Hquiet Hvrew Hnodup Hfresh.
  unfold daemon_mode. rewrite Hvrew. cbn [negb while_True]. rewrite bind_run.
  set (w1 := (update_status _ w).2).
  assert (counters_numeric w1) as Hnum
      by (exists 0, 0; subst w1; rewrite snapshot_after_update_status;
          split; by apply lookup_updated).
  assert (counted w1) as Hcounted by (by apply counted_at_start).
  destruct (poll_quiet env w1 Hquiet Hnum) as (Hret & _ & Hdone & Hnone).
  destruct (poll_counted env w1 Hcounted) as [[Hp Hf] _].
  assert (settled_ids (sql_select_planned (db w)).*1.*1 (db w) (db (poll env w1).2))
    as Hsettled.
  { rewrite poll_run, get_planned_videos_up by apply Hquiet.
    pose proof (for_video_in_settled env (sql_select_planned (db w1))
                  (set_store_ops (S (store_ops w1)) w1) Hquiet Hnum) as Hs.
    destruct (for_video_in_quiet env (sql_select_planned (db w1))
                (set_store_ops (S (store_ops w1)) w1) Hquiet Hnum) as (Hr & _).
    destruct (for_video_in env _ _) as [r w2]. cbn [fst snd] in *. subst r.
    destruct (time_sleep_store env 60 w2) as (Hdb & _). rewrite Hdb. exact Hs. }
  destruct (poll env w1) as [r w2]. cbn [fst snd] in *. subst r.
  destruct (while_True_idle_world env passes w2 Hquiet Hnone)
    as (Hr & Hdb & _ & Hj & Hst & _).
  destruct (while_True env passes w2) as [r w3]. cbn [fst snd] in *. subst r.
  cbn [fst snd]. unfold snapshot. rewrite Hdb, Hst. fold (snapshot w2).
  split_and!; [reflexivity | | exact Hnone |].
  - apply (Forall2_impl_elem _ _ _ _ Hsettled). intros v v' Hv.
    destruct (sql_select_planned_ids (db w) Hnodup) as [_ Hplanned].
    unfold settled_row.
    destruct (decide (video_id v ∈ (sql_select_planned (db w)).*1.*1)) as [Hin|Hin];
      destruct (decide (status v = "planned")) as [Hst'|Hst']; try done.
    + exfalso. apply Hst'. by apply (Hplanned _ Hin v Hv).
    + exfalso. apply Hin. apply list_elem_of_fmap. exists (video_id v, title v).
      split; [done|]. apply list_elem_of_fmap. exists (selected v). split; [done|].
      apply sql_select_planned_elem. by exists v.
  - exists (tally "downloaded" (journal w2)), (tally "failed" (journal w2)).
    split_and!; [exact Hp | exact Hf |].
    rewrite <- completed_length, Hdone.
    change (journal w1) with (journal w). change (db w1) with (db w).
    rewrite Hfresh. change (completed []) with (@nil Z). cbn [app].
    rewrite !length_fmap.
    by rewrite sql_select_planned_perm, length_fmap.
Qed.

Lemma quiet_run_settles_the_queue_witness :
  quiet calm ∧ check_vrew_installed calm = true ∧
  NoDup (video_id <$> db (fresh [planned 2 "b"; planned 1 "a"])) ∧
  journal (fresh [planned 2 "b"; planned 1 "a"]) = [] ∧
  (daemon_mode calm 2 (fresh [planned 2 "b"; planned 1 "a"])).1 = Looping.
Proof.
  assert (quiet calm) as Hquiet by (split_and!; done).
  assert (NoDup (video_id <$> db (fresh [planned 2 "b"; planned 1 "a"])))
    as Hnodup by (apply (bool_decide_unpack _); vm_compute; exact I).
  split_and!; [exact Hquiet | reflexivity | exact Hnodup | reflexivity |].
  apply (quiet_run_settles_the_queue calm 1 (fresh [planned 2 "b"; planned 1 "a"])
           Hquiet eq_refl Hnodup eq_refl).
Defined.

(** ** Single-shot mode and the status report *)

Lemma launch_others_untouched env vid t s (w : world) (v : video) :
  video_id v ≠ vid →
  v ∈ db (launch_vrew_automation env vid t s w).2 ↔ v ∈ db w.
Proof.
  intros Hne.
  destruct (launch_commits env vid t s w) as (seg & Hshape & Htl & _).
  apply timeline_head in Htl. rewrite Htl.
  destruct (launch_shape_table _ _ _ _ w Hshape)
    as [[-> _]|[[-> _]|[[-> _]|[-> _]]]]; [done | | |]; by apply sql_update_miss.
Qed.

(** X14: Single-shot mode, with the database reachable for the query.  With
    nothing planned it returns false after the query alone.  Otherwise it
    runs the automation for one planned job, the one with the smallest id, and
    touches no row of any other job. *)
Theorem process_one_takes_the_smallest_id env (w : world) :
  store_up env (store_ops w) = true →
  ((∀ v, v ∈ db w → status v ≠ "planned") →
   process_one env w = (Ret false, set_store_ops (S (store_ops w)) w)) ∧
  (∀ r, r ∈ db w → status r = "planned" →
   ∃ vid t s,
     process_one env w
     = launch_vrew_automation env vid t s (set_store_ops (S (store_ops w)) w) ∧
     (∃ v, v ∈ db w ∧ status v = "planned" ∧ selected v = (vid, t, s)) ∧
     (∀ v, v ∈ db w → status v = "planned" → vid ≤ video_id v) ∧
     (∀ v, video_id v ≠ vid → v ∈ db (process_one env w).2 ↔ v ∈ db w)).
Proof.
  intros Hup. unfold process_one. rewrite bind_run.
  rewrite (get_planned_videos_up env w Hup). split.
  - intros Hnone. by rewrite (sql_select_planned_none _ Hnone).
  - intros r Hr Hst.
    pose proof (sql_select_planned_sorted (db w)) as Hsorted.
    pose proof (sql_select_planned_elem (db w)) as Helem.
    destruct (sql_select_planned (db w)) as [|[[vid t] s] rest].
    { exfalso. eapply (not_elem_of_nil (selected r)). apply Helem. by exists r. }
    exists vid, t, s. split_and!; [reflexivity | | |].
    + destruct (proj1 (Helem (vid, t, s))) as (v & Hv & Hpl & Hsel); [left|].
      by exists v.
    + intros v Hv Hpl.
      assert (selected v ∈ (vid, t, s) :: rest) as Hin by (apply Helem; by exists v).
      apply StronglySorted_inv in Hsorted as [_ Hall].
      apply elem_of_cons in Hin as [Heq|Hin].
      * injection Heq as -> _ _. lia.
      * rewrite Forall_forall in Hall. apply (Hall _ Hin).
    + intros v Hne. cbn -[launch_vrew_automation].
      change (db w) with (db (set_store_ops (S (store_ops w)) w)).
      by apply launch_others_untouched.
Qed.

Lemma process_one_takes_the_smallest_id_witness :
  store_up calm 0 = true ∧
  status <$> db (process_one calm (fresh [planned 2 "b"; planned 1 "a"])).2
  = ["planned"; "downloaded"].
Proof.
  split; [reflexivity|].
  destruct (process_one_takes_the_smallest_id calm (fresh [planned 2 "b"; planned 1 "a"])
              eq_refl) as [_ Hsome].
  destruct (Hsome (planned 2 "b")) as (vid & t & s & _); [by left | reflexivity |].
  reflexivity.
Defined.

Lemma show_status_run env (w : world) :
  show_status env w
  = if truthy (dict_get (snapshot w) "current_video" JNull)
       && negb (subscriptable (dict_get (snapshot w) "current_video" JNull))
    then (Raise (Exception "TypeError"), w)
    else match get_planned_videos env w with
         | (Ret _, w') => (Ret tt, w')
         | (Raise e, w') => (Raise e, w')
         end.
Proof.
  unfold show_status. rewrite bind_run. cbn [get_status gets]. fold (snapshot w).
  rewrite bind_run.
  destruct (truthy _ && negb _); [reflexivity|].
  cbn [mret M_ret]. rewrite bind_run.
  by destruct (get_planned_videos env w) as [[videos|e] w'].
Qed.

(** X15: [--status] wins over the other flags and only reads: whatever else
    is on the command line, the table, its history, the journal and the
    status file are left as they were.  The exit status is non-zero when the
    database cannot be queried, and also when the status file holds a current
    video that is truthy and no object, in which case the [TypeError] comes
    before the database is asked. *)
Theorem status_mode_only_reads env (passes : nat) (args : arguments) (w : world) :
  args_status args = true →
  timeline (main env passes args w).2 = timeline w ∧
  journal (main env passes args w).2 = journal w ∧
  status_json (main env passes args w).2 = status_json w ∧
  (store_up env (store_ops w) = false →
   exit_of (main env passes args w).1 = Some ExitNonZero) ∧
  (truthy (dict_get (snapshot w) "current_video" JNull) = true →
   subscriptable (dict_get (snapshot w) "current_video" JNull) = false →
   (main env passes args w).1 = Exited (Raise (Exception "TypeError")) ∧
   exit_of (main env passes args w).1 = Some ExitNonZero ∧
   store_ops (main env passes args w).2 = store_ops w).
Proof.
  intros Hstatus. unfold main. rewrite Hstatus, show_status_run.
  destruct (truthy _) eqn:Htruthy; destruct (subscriptable _) eqn:Hsub; cbn [andb negb];
    try (destruct (store_up env (store_ops w)) eqn:Hup;
         [rewrite (get_planned_videos_up env w Hup)
         |rewrite (get_planned_videos_down env w Hup)]);
    split_and!; try reflexivity; try discriminate; intros; try discriminate;
    split_and!; reflexivity.
Qed.

Lemma status_mode_only_reads_witness :
  args_status status_args = true ∧
  timeline (main calm 5 status_args (fresh [planned 1 "Intro"])).2
  = timeline (fresh [planned 1 "Intro"]) ∧
  (main calm 5 status_args
     (set_status_json (Some {[ "current_video" := JStr "busy" ]})
        (fresh [planned 1 "Intro"]))).1
  = Exited (Raise (Exception "TypeError")).
Proof.
  split_and!; [reflexivity | |].
  - apply (status_mode_only_reads calm 5 status_args (fresh [planned 1 "Intro"])).
    reflexivity.
  - apply (status_mode_only_reads calm 5 status_args
             (set_status_json (Some {[ "current_video" := JStr "busy" ]})
                (fresh [planned 1 "Intro"]))); reflexivity.
Defined.

(** ** The query, once more *)

Lemma sorted_ids_strict (l : list (Z * string * string)) :
  StronglySorted by_id l → NoDup l.*1.*1 → StronglySorted Z.lt l.*1.*1.
Proof.
  induction 1 as [|x l Hsorted IH Hall]; intros Hnodup; [constructor|].
  rewrite !fmap_cons in *. apply NoDup_cons in Hnodup as [Hfresh Hnodup].
  constructor; [by apply IH|].
  rewrite !Forall_fmap. rewrite Forall_forall in Hall. apply Forall_forall.
  intros y Hy. cbn. specialize (Hall y Hy). unfold by_id in Hall.
  assert (x.1.1 ≠ y.1.1); [|lia].
  intros Heq. apply Hfresh. rewrite Heq.
  apply list_elem_of_fmap. exists y.1. split; [done|].
  apply list_elem_of_fmap. by exists y.
Qed.

(** X16: On a table with unique ids and with the database reachable, the query
    returns the planned jobs, each exactly once with the id, title and script
    of its row and no other entry, with strictly ascending ids; it returns
    the empty list exactly when no row is planned; and it changes nothing in
    the table. *)
Theorem planned_ids_strictly_ascending env (w : world) :
  NoDup (video_id <$> db w) → store_up env (store_ops w) = true →
  ∃ videos,
    (get_planned_videos env w).1 = Ret videos ∧
    videos ≡ₚ selected <$> filter (λ v, status v = "planned") (db w) ∧
    (∀ x, x ∈ videos ↔ ∃ v, v ∈ db w ∧ status v = "planned" ∧ x = selected v) ∧
    NoDup videos ∧
    StronglySorted Z.lt videos.*1.*1 ∧
    (videos = [] ↔ ∀ v, v ∈ db w → status v ≠ "planned") ∧
    timeline (get_planned_videos env w).2 = timeline w.
Proof.
  intros Hnodup Hup. exists (sql_select_planned (db w)).
  rewrite (get_planned_videos_up env w Hup).
  split_and!; [reflexivity | apply sql_select_planned_perm
               | apply sql_select_planned_elem | | | | reflexivity].
  - eapply NoDup_fmap_1, NoDup_fmap_1. by apply sql_select_planned_ids.
  - apply sorted_ids_strict; [apply sql_select_planned_sorted|].
    by apply sql_select_planned_ids.
  - split; [|apply sql_select_planned_none].
    intros Hnil v Hv Hst.
    eapply (not_elem_of_nil (selected v)). rewrite <- Hnil.
    apply sql_select_planned_elem. by exists v.
Qed.

Lemma planned_ids_strictly_ascending_witness :
  NoDup (video_id <$> db (fresh [planned 3 "c"; planned 1 "a"; planned 2 "b"])) ∧
  store_up calm 0 = true ∧
  (get_planned_videos calm (fresh [planned 3 "c"; planned 1 "a"; planned 2 "b"])).1
  = Ret [(1, "a", "Hello world"); (2, "b", "Hello world"); (3, "c", "Hello world")].
Proof.
  assert (NoDup (video_id <$> db (fresh [planned 3 "c"; planned 1 "a"; planned 2 "b"])))
    as Hnodup by (apply (bool_decide_unpack _); vm_compute; exact I).
  split_and!; [exact Hnodup | reflexivity |].
  destruct (planned_ids_strictly_ascending calm
              (fresh [planned 3 "c"; planned 1 "a"; planned 2 "b"]) Hnodup eq_refl)
    as (videos & _).
  reflexivity.
Defined.

(** ** The name of the exported file *)

Lemma substring_0_length (n : nat) (s : string) :
  (String.length (substring 0 n s) ≤ n)%nat.
Proof.
  revert s. induction n as [|n IH]; intros [|c s]; cbn; try lia.
  specialize (IH s). lia.
Qed.

Lemma substring_0_all_chars (p : ascii → bool) (n : nat) (s : string) :
  all_chars p s = true → all_chars p (substring 0 n s) = true.
Proof.
  revert s. induction n as [|n IH]; intros [|c s]; cbn; try done.
  intros [Hc Hs]%andb_true_iff. rewrite Hc. cbn. by apply IH.
Qed.

Lemma substring_0_whole (n : nat) (s : string) :
  (String.length s ≤ n)%nat → substring 0 n s = s.
Proof.
  revert s. induction n as [|n IH]; intros [|c s]; cbn; try done; [lia|].
  intros Hlen. f_equal. apply IH. lia.
Qed.

Lemma substring_0_map_chars (f : ascii → ascii) (n : nat) (s : string) :
  map_chars f (substring 0 n s) = substring 0 n (map_chars f s).
Proof.
  revert s. induction n as [|n IH]; intros [|c s]; cbn; try done.
  by rewrite IH.
Qed.

Lemma map_chars_all_chars (p : ascii → bool) (f : ascii → ascii) (s : string) :
  (∀ c, p (f c) = true) → all_chars p (map_chars f s) = true.
Proof.
  intros Hp. induction s as [|c s IH]; cbn; [done|]. by rewrite Hp, IH.
Qed.

Lemma map_chars_fixed (f : ascii → ascii) (p : ascii → bool) (s : string) :
  (∀ c, p c = true → f c = c) → all_chars p s = true → map_chars f s = s.
Proof.
  intros Hf. induction s as [|c s IH]; cbn; [done|].
  intros [Hc Hs]%andb_true_iff. by rewrite (Hf c Hc), IH.
Qed.

(** X17: for an ASCII title, the title part of a file name is at most twenty
    characters long and made of letters, digits and underscores only;
    cleaning it again changes nothing; and a title of at most twenty letters
    and digits is kept as it is. *)
Theorem safe_title_is_safe (t : string) :
  all_chars is_ascii t = true →
  (String.length (safe_title t) ≤ 20)%nat ∧
  all_chars (λ c, isalnum c || Ascii.eqb c "_") (safe_title t) = true ∧
  safe_title (safe_title t) = safe_title t ∧
  ((String.length t ≤ 20)%nat → all_chars isalnum t = true → safe_title t = t).
Proof.
  intros _.
  assert (∀ c, isalnum c || Ascii.eqb c "_" = true →
               (if isalnum c then c else "_"%char) = c) as Hfixed.
  { intros c Hc. destruct (isalnum c); [done|].
    cbn in Hc. by apply Ascii.eqb_eq in Hc. }
  assert (all_chars (λ c, isalnum c || Ascii.eqb c "_") (safe_title t) = true) as Hsafe.
  { unfold safe_title. apply substring_0_all_chars, map_chars_all_chars.
    intros c. by destruct (isalnum c) eqn:Hc; [rewrite Hc|]. }
  split_and!; [apply substring_0_length | exact Hsafe | |].
  - unfold safe_title at 1.
    rewrite (map_chars_fixed _ _ _ Hfixed Hsafe).
    apply substring_0_whole. apply substring_0_length.
  - intros Hlen Halnum. unfold safe_title.
    rewrite (map_chars_fixed _ isalnum); [by apply substring_0_whole | | done].
    intros c Hc. by rewrite Hc.
Qed.

Lemma safe_title_is_safe_witness :
  all_chars is_ascii "Hello, world! A first video" = true ∧
  safe_title "Hello, world! A first video" = "Hello__world__A_firs" ∧
  safe_title (safe_title "Hello, world! A first video")
  = safe_title "Hello, world! A first video".
Proof.
  split_and!; [reflexivity | reflexivity |].
  apply (safe_title_is_safe "Hello, world! A first video"). reflexivity.
Defined.

Lemma append_cancel_l (a x y : string) : a +:+ x = a +:+ y → x = y.
Proof. induction a as [|c a IH]; cbn; [done|]. intros [= Heq]. by apply IH. Qed.

Lemma all_chars_append (p : ascii → bool) (a b : string) :
  all_chars p a = true → all_chars p b = true → all_chars p (a +:+ b) = true.
Proof.
  intros Ha Hb. induction a as [|c a IH]; [done|].
  cbn [all_chars] in Ha. apply andb_true_iff in Ha as [Hc Ha].
  change (String c a +:+ b) with (String c (a +:+ b)).
  cbn [all_chars]. rewrite Hc. by apply IH.
Qed.

(** Two strings without underscore that are followed by an underscore in
    equal texts are equal. *)
Lemma split_at_underscore (a b r1 r2 : string) :
  all_chars (λ c, negb (Ascii.eqb c "_")) a = true →
  all_chars (λ c, negb (Ascii.eqb c "_")) b = true →
  a +:+ String "_" r1 = b +:+ String "_" r2 → a = b.
Proof.
  revert b. induction a as [|c a IH]; intros [|d b]; cbn; try done.
  - intros _ [Hd _]%andb_true_iff [= <- _]. done.
  - intros [Hc _]%andb_true_iff _ [= -> _]. done.
  - intros [_ Ha]%andb_true_iff [_ Hb]%andb_true_iff [= -> Heq].
    f_equal. by apply IH.
Qed.

Lemma pretty_N_char_no_underscore (d : N) :
  negb (Ascii.eqb (pretty_N_char d) "_") = true.
Proof.
  unfold pretty_N_char. destruct d as [|p]; [done|].
  repeat (destruct p as [p|p|]; try reflexivity).
Qed.

Lemma pretty_N_go_no_underscore (x : N) (s : string) :
  all_chars (λ c, negb (Ascii.eqb c "_")) s = true →
  all_chars (λ c, negb (Ascii.eqb c "_")) (pretty_N_go x s) = true.
Proof.
  revert s. induction (N.lt_wf_0 x) as [x _ IH]; intros s Hs.
  destruct (decide (x = 0)%N) as [->|Hx]; [by rewrite pretty_N_go_0|].
  rewrite pretty_N_go_step by lia. apply IH.
  - apply N.div_lt; lia.
  - cbn. by rewrite pretty_N_char_no_underscore.
Qed.

Lemma pretty_Z_no_underscore (z : Z) :
  all_chars (λ c, negb (Ascii.eqb c "_")) (pretty z) = true.
Proof.
  assert (∀ n : N, all_chars (λ c, negb (Ascii.eqb c "_")) (pretty n) = true) as HN.
  { intros n. unfold pretty, pretty_N. case_decide; [done|].
    by apply pretty_N_go_no_underscore. }
  destruct z as [|p|p]; [done | apply HN |].
  change (pretty (Z.neg p)) with ("-" +:+ pretty (N.pos p)).
  apply all_chars_append; [done | apply HN].
Qed.

(** X18: Jobs with different ids are exported to different files, whatever their
    titles. *)
Theorem output_paths_differ env vid1 vid2 (t1 t2 : string) :
  vid1 ≠ vid2 → output_path env vid1 t1 ≠ output_path env vid2 t2.
Proof.
  intros Hne Heq. apply Hne. unfold output_path, filename in Heq.
  do 3 apply append_cancel_l in Heq.
  apply (inj pretty).
  eapply split_at_underscore; [apply pretty_Z_no_underscore..|exact Heq].
Qed.

Lemma output_paths_differ_witness :
  (1 : Z) ≠ 12 ∧ output_path calm 1 "2 is a title" ≠ output_path calm 12 "is a title".
Proof.
  split; [discriminate|].
  apply (output_paths_differ calm 1 12). discriminate.
Defined.

(** ** Failures before Vrew is driven *)

(** X19: When the imports raise an exception of class [Exception], the job is
    failed at once, with the database reachable: the run returns false after a
    single write, which takes the job from planned straight to failed; Vrew
    is not started, the clock does not move and the status file is not
    touched, so [current_video] does not name the job. *)
Theorem import_error_fails_the_job_at_once env vid t s (w : world) (what : string) :
  import_fault env vid = Some (Exception what) →
  store_up env (store_ops w) = true →
  launch_vrew_automation env vid t s w
  = (Ret false, commit_update vid "failed" "" (set_store_ops (S (store_ops w)) w)) ∧
  journal (launch_vrew_automation env vid t s w).2 = (vid, "failed", "") :: journal w ∧
  status_json (launch_vrew_automation env vid t s w).2 = status_json w ∧
  now (launch_vrew_automation env vid t s w).2 = now w.
Proof.
  intros Himp Hup.
  assert (launch_vrew_automation env vid t s w
          = (Ret false, commit_update vid "failed" "" (set_store_ops (S (store_ops w)) w)))
    as ->.
  { run_M. rewrite Himp. cbn. by rewrite Hup. }
  split_and!; reflexivity.
Qed.

Lemma import_error_fails_the_job_at_once_witness :
  import_fault
    {| OUTPUT_DIR := "/out"; VREW_PATH := "Vrew.exe"; os_sep := "/";
       path_exists := λ _, true; store_up := λ _, true;
       import_fault := λ _, Some (Exception "ModuleNotFoundError");
       gui_fault := λ _, None; gui_seconds := λ _, 686; ctrl_c := λ _, false |} 1
  = Some (Exception "ModuleNotFoundError") ∧
  journal
    (launch_vrew_automation
       {| OUTPUT_DIR := "/out"; VREW_PATH := "Vrew.exe"; os_sep := "/";
          path_exists := λ _, true; store_up := λ _, true;
          import_fault := λ _, Some (Exception "ModuleNotFoundError");
          gui_fault := λ _, None; gui_seconds := λ _, 686; ctrl_c := λ _, false |}
       1 "Intro" "Hello world" (fresh [planned 1 "Intro"])).2
  = [(1, "failed", "")].
Proof.
  split; [reflexivity|].
  apply (import_error_fails_the_job_at_once _ 1 "Intro" "Hello world"
           (fresh [planned 1 "Intro"]) "ModuleNotFoundError"); reflexivity.
Defined.

(** X20: A database error at the write that marks the job processing is caught
    like any failure of the automation.  When the database answers the write
    of the handler, the run returns false with the job failed and nothing
    else written; when it does not, the database error escapes and the table
    is as it was. *)
Theorem database_error_at_marking env vid t s (w : world) :
  import_fault env vid = None → store_up env (store_ops w) = false →
  (store_up env (S (store_ops w)) = true →
   (launch_vrew_automation env vid t s w).1 = Ret false ∧
   db (launch_vrew_automation env vid t s w).2 = sql_update vid "failed" "" (db w) ∧
   journal (launch_vrew_automation env vid t s w).2 = (vid, "failed", "") :: journal w) ∧
  (store_up env (S (store_ops w)) = false →
   (launch_vrew_automation env vid t s w).1
   = Raise (Exception "sqlite3.OperationalError") ∧
   timeline (launch_vrew_automation env vid t s w).2 = timeline w ∧
   journal (launch_vrew_automation env vid t s w).2 = journal w) ∧
  status_json (launch_vrew_automation env vid t s w).2 = status_json w.
Proof.
  intros Himp Hdown. run_M. rewrite Himp. cbn. rewrite Hdown. cbn.
  destruct (store_up env (S (store_ops w))); cbn;
    split_and!; try reflexivity; try discriminate; intros _; split_and!; reflexivity.
Qed.

Lemma database_error_at_marking_witness :
  import_fault outage 1 = None ∧ store_up outage 0 = false ∧ store_up outage 1 = true ∧
  (launch_vrew_automation outage 1 "Intro" "Hello world" (fresh [planned 1 "Intro"])).1
  = Ret false.
Proof.
  split_and!; [reflexivity | reflexivity | reflexivity |].
  destruct (database_error_at_marking outage 1 "Intro" "Hello world"
              (fresh [planned 1 "Intro"]) eq_refl eq_refl) as (Hback & _).
  apply Hback. reflexivity.
Defined.

(** ** The current video between two passes *)

(** An automation run writes [current_video] at one place only, and what
    it writes there is its own job. *)
Lemma launch_current_video env vid t s (w : world) :
  snapshot (launch_vrew_automation env vid t s w).2 !! "current_video"
  = snapshot w !! "current_video" ∨
  snapshot (launch_vrew_automation env vid t s w).2 !! "current_video"
  = Some (JVideo vid t).
Proof.
  run_M.
  destruct (import_fault env vid) as [[|what]|]; cbn; [by left | |].
  - destruct (store_up env (store_ops w)); by left.
  - destruct (store_up env (store_ops w)); cbn.
    + right.
      destruct (gui_fault env vid) as [[|what]|]; cbn;
        [ | destruct (store_up env (S (store_ops w))); cbn
          | destruct (path_exists env (output_path env vid t)); cbn;
            destruct (store_up env (S (store_ops w))); cbn;
            try (destruct (store_up env (S (S (store_ops w)))); cbn) ];
        by apply lookup_updated.
    + destruct (store_up env (S (store_ops w))); by left.
Qed.

Lemma kept_or_named_trans (w0 w1 w2 : world) :
  snapshot w1 !! "current_video" = snapshot w0 !! "current_video" ∨ names_a_job w1 →
  snapshot w2 !! "current_video" = snapshot w1 !! "current_video" ∨ names_a_job w2 →
  snapshot w2 !! "current_video" = snapshot w0 !! "current_video" ∨ names_a_job w2.
Proof.
  intros [H1|(vid & t & H1)] [H2|H2];
    [left; congruence | by right | right; exists vid, t; congruence | by right].
Qed.

Lemma dispatch_current_video env vid t s (w : world) :
  snapshot (dispatch env (vid, t, s) w).2 !! "current_video"
  = snapshot w !! "current_video" ∨
  names_a_job (dispatch env (vid, t, s) w).2.
Proof.
  unfold names_a_job. rewrite dispatch_keeps_key by done.
  destruct (launch_current_video env vid t s w) as [H|H]; [by left | right; eauto].
Qed.

Lemma for_video_in_current_video env videos (w : world) :
  snapshot (for_video_in env videos w).2 !! "current_video"
  = snapshot w !! "current_video" ∨
  names_a_job (for_video_in env videos w).2.
Proof.
  revert w. induction videos as [|[[vid t] s] rest IH]; intros w; [by left|].
  cbn [for_video_in]. rewrite bind_run.
  pose proof (dispatch_current_video env vid t s w) as Hd.
  destruct (dispatch env (vid, t, s) w) as [[u|e] w1]; cbn [snd] in *; [|exact Hd].
  exact (kept_or_named_trans w w1 _ Hd (IH w1)).
Qed.

Lemma poll_current_video env (w : world) :
  snapshot (poll env w).2 !! "current_video" = snapshot w !! "current_video" ∨
  names_a_job (poll env w).2.
Proof.
  rewrite poll_run. destruct (store_up env (store_ops w)) eqn:Hup.
  - rewrite (get_planned_videos_up env w Hup).
    pose proof (for_video_in_current_video env (sql_select_planned (db w))
                  (set_store_ops (S (store_ops w)) w)) as Hfor.
    destruct (for_video_in env _ _) as [[u|e] w1]; cbn [snd] in *; [|exact Hfor].
    destruct (time_sleep_store env 60 w1) as (_ & _ & _ & Hst).
    unfold names_a_job, snapshot in *. by rewrite Hst.
  - rewrite (get_planned_videos_down env w Hup). by left.
Qed.

Lemma while_True_current_video env (passes : nat) (w : world) :
  snapshot (while_True env passes w).2 !! "current_video"
  = snapshot w !! "current_video" ∨
  names_a_job (while_True env passes w).2.
Proof.
  revert w. induction passes as [|n IH]; intros w; [by left|].
  cbn [while_True]. rewrite bind_run.
  pose proof (poll_current_video env w) as Hp.
  destruct (poll env w) as [[u|e] w1]; cbn [snd] in *; [|exact Hp].
  exact (kept_or_named_trans w w1 _ Hp (IH w1)).
Qed.

(** C7 (amended): a dispatch that gets as far as marking its job
    [processing] (imports done, database reachable) leaves [current_video]
    naming that job when it ends, however it ends, so the entry is
    overwritten by the next such dispatch.  The loop never clears the entry:
    after any number of passes, whether the loop is about to start another
    pass or has just been left by an exception, [current_video] is what it
    was before the loop or names a job, and the same holds of every state in
    which [daemon_mode] is still looping.  It is cleared by the [finally]
    clause, when [daemon_mode] leaves its loop, which also sets running to
    false. *)
Theorem current_video_kept_until_exit env vid t s (w : world) :
  import_fault env vid = None → store_up env (store_ops w) = true →
  snapshot (dispatch env (vid, t, s) w).2 !! "current_video" = Some (JVideo vid t) ∧
  (∀ passes (w1 : world),
     (snapshot (while_True env passes w1).2 !! "current_video"
      = snapshot w1 !! "current_video" ∨
      names_a_job (while_True env passes w1).2) ∧
     (names_a_job w1 → names_a_job (while_True env passes w1).2)) ∧
  (∀ passes (w1 : world),
     (daemon_mode env passes w1).1 = Looping →
     (snapshot (daemon_mode env passes w1).2 !! "current_video"
      = snapshot w1 !! "current_video" ∨
      names_a_job (daemon_mode env passes w1).2) ∧
     (names_a_job w1 → names_a_job (daemon_mode env passes w1).2)) ∧
  (∀ passes r, check_vrew_installed env = true →
     (daemon_mode env passes w).1 = Exited r →
     snapshot (daemon_mode env passes w).2 !! "current_video" = Some JNull ∧
     snapshot (daemon_mode env passes w).2 !! "running" = Some (JBool false)).
Proof.
  intros Himp Hup0.
  assert (∀ w0 w1 : world,
            snapshot w1 !! "current_video" = snapshot w0 !! "current_video" ∨
            names_a_job w1 →
            names_a_job w0 → names_a_job w1) as Hnamed.
  { intros w0 w1 [H|H] (v0 & t0 & H0); [exists v0, t0; congruence | exact H]. }
  split_and!.
  - rewrite dispatch_keeps_key by done. by apply launch_names_current_video.
  - intros passes w1. pose proof (while_True_current_video env passes w1) as H.
    split; [exact H | exact (Hnamed _ _ H)].
  - intros passes w1 Hloop.
    assert (snapshot (daemon_mode env passes w1).2 !! "current_video"
            = snapshot w1 !! "current_video" ∨
            names_a_job (daemon_mode env passes w1).2) as H;
      [|split; [exact H | exact (Hnamed _ _ H)]].
    revert Hloop. unfold daemon_mode.
    destruct (negb (check_vrew_installed env)); [discriminate|].
    set (w2 := (update_status _ w1).2).
    assert (snapshot w2 !! "current_video" = snapshot w1 !! "current_video") as Hstart.
    { unfold w2. rewrite snapshot_after_update_status. by apply lookup_not_updated. }
    pose proof (while_True_current_video env passes w2) as H.
    destruct (while_True env passes w2) as [[u|[|what]] w3]; cbn [fst snd] in *;
      [intros _ | discriminate | discriminate].
    exact (kept_or_named_trans w1 w2 w3 (or_introl Hstart) H).
  - intros passes r Hvrew. unfold daemon_mode. rewrite Hvrew. cbn [negb].
    destruct (while_True env passes _) as [[[]|[|what]] w2]; cbn [fst snd];
      [discriminate | |]; intros _;
      unfold finally_stopped; rewrite snapshot_after_update_status;
      split; by apply lookup_updated.
Qed.

Lemma current_video_kept_until_exit_witness :
  import_fault calm 1 = None ∧ store_up calm 0 = true ∧
  snapshot (dispatch calm (1, "Intro", "Hello world") (fresh [planned 1 "Intro"])).2
    !! "current_video" = Some (JVideo 1 "Intro") ∧
  names_a_job (daemon_mode calm 2 (fresh [planned 1 "Intro"])).2.
Proof.
  pose proof (current_video_kept_until_exit calm 1 "Intro" "Hello world"
                (fresh [planned 1 "Intro"]) eq_refl eq_refl)
    as (Hdispatch & _ & Hloop & _).
  split_and!; [reflexivity | reflexivity | exact Hdispatch |].
  destruct (Hloop 2%nat (fresh [planned 1 "Intro"]) eq_refl) as [[Hkept|Hnamed] _].
  - exists 1, "Intro". reflexivity.
  - exact Hnamed.
Defined.
